(** * OpenLogin: the login / session orchestrator of [packages/openlogin]

    A shallow embedding of [src/packages/openlogin/src/OpenLogin.ts].

    The class is a thin sequencer over four collaborators that live outside
    the file: the session manager (a remote session store), the browser
    storage adapter, the page ([window], the hash of its URL) and the popup
    window.  A method is embedded as a function in a small state-and-exception
    monad over the pair (object, world); every interaction with a collaborator
    leaves an [Event] in the world's trace, so that "nothing was called" is a
    statement about the trace.  What a collaborator answers is a field of
    [Env]; theorems quantify over it. *)

From Stdlib Require Import ZArith String Ascii.
From stdpp Require Import gmap strings list fin_maps.

Local Open Scope string_scope.

(** ** JavaScript values as the class uses them *)

(** [ToBoolean] of the language: the test behind [if (x)], [!x] and [x ? a : b]. *)
Class ToBoolean (A : Type) := to_boolean : A → bool.

#[export] Instance string_to_boolean : ToBoolean string :=
  λ s, match s with EmptyString => false | String _ _ => true end.
#[export] Instance bool_to_boolean : ToBoolean bool := λ b, b.
#[export] Instance number_to_boolean : ToBoolean Z := λ n, negb (n =? 0)%Z.
(** An object or an array is always truthy. *)
#[export] Instance object_to_boolean {V} : ToBoolean (gmap string V) := λ _, true.
#[export] Instance array_to_boolean {V} : ToBoolean (list V) := λ _, true.
(** An optional property: [None] is [undefined]. *)
#[export] Instance optional_to_boolean {A} `{ToBoolean A} : ToBoolean (option A) :=
  λ o, match o with Some a => to_boolean a | None => false end.

(** [x || d] for an optional property that is given a default. *)
Definition or_default {A} `{ToBoolean A} (o : option A) (d : A) : option A :=
  if to_boolean o then o else Some d.

(** What a [throw] or a rejected promise carries. *)
Inductive exn :=
| Error (message : string)
| TypeError (message : string).

(** ** [String.prototype.padStart] *)

(** [fill_cycle n fill rest] is the first [n] characters of [rest] followed
    by endless repetitions of [fill]. *)
Fixpoint fill_cycle (n : nat) (fill rest : string) : string :=
  match n with
  | O => ""
  | S n' =>
      match rest with
      | String c r => String c (fill_cycle n' fill r)
      | EmptyString =>
          match fill with
          | String c r => String c (fill_cycle n' fill r)
          | EmptyString => ""
          end
      end
  end.

Definition padStart (targetLength : nat) (fillString : string) (s : string) : string :=
  let len := String.length s in
  if (targetLength <=? len)%nat then s
  else if to_boolean fillString
       then fill_cycle (targetLength - len) fillString fillString +:+ s
       else s.

(** [n] copies of the character ['0']. *)
Fixpoint zeros (n : nat) : string :=
  match n with O => "" | S n' => String "0"%char (zeros n') end.

(** ** Session data *)

(** A property of the session data: key material is a string, [userInfo] is
    a record of strings. *)
Inductive value :=
| VString (s : string)
| VObject (o : gmap string string).

(** [OpenloginSessionData]: a sparse object; a field that is not in the map
    is [undefined]. *)
Abbreviation OpenloginSessionData := (gmap string value).

(** [{ ...a, ...b }]: the properties of [b] win. *)
Definition spread {V} (a b : gmap string V) : gmap string V := b ∪ a.

(** ** Completions and the method monad *)

Inductive Completion (A : Type) :=
| Returned (a : A)
| Thrown (e : exn).
Arguments Returned {A} a.
Arguments Thrown {A} e.

Definition M (S A : Type) : Type := S → Completion A * S.

#[export] Instance M_ret {S} : MRet (M S) := λ A a s, (Returned a, s).
#[export] Instance M_bind {S} : MBind (M S) := λ A B k m s,
  match m s with
  | (Returned a, s') => k a s'
  | (Thrown e, s') => (Thrown e, s')
  end.

Definition throw {S A} (e : exn) : M S A := λ s, (Thrown e, s).
Definition gets {S A} (f : S → A) : M S A := λ s, (Returned (f s), s).
Definition modify {S} (f : S → S) : M S unit := λ s, (Returned tt, f s).
(** [try { m } catch (err) { h err }] *)
Definition try_catch {S A} (m : M S A) (h : exn → M S A) : M S A :=
  λ s, match m s with
       | (Returned a, s') => (Returned a, s')
       | (Thrown e, s') => h e s'
       end.

(** ** Configuration *)

(** Modelled from the spec: the constants [OPENLOGIN_NETWORK] and [UX_MODE]
    are imported from the utilities package, whose declarations are not part
    of the file; the network identifiers and the two UX modes are the ones
    the specification enumerates. *)
Module OPENLOGIN_NETWORK.
Definition MAINNET : string := "mainnet".
Definition TESTNET : string := "testnet".
Definition CYAN : string := "cyan".
Definition DEVELOPMENT : string := "development".
Definition SK_TESTNET : string := "sk_testnet".
Definition CELESTE : string := "celeste".
Definition AQUA : string := "aqua".
End OPENLOGIN_NETWORK.

Module UX_MODE.
Definition POPUP : string := "popup".
Definition REDIRECT : string := "redirect".
End UX_MODE.

(** [OpenLoginOptions], with the properties the class reads or defaults.
    White-label and login configuration are opaque to the class; they are
    kept as objects of strings. *)
Record OpenLoginOptions := {
  sdkUrl : option string;
  network : option string;
  redirectUrl : option string;
  uxMode : option string;
  replaceUrlOnRedirect : option bool;
  originData : option (gmap string string);
  whiteLabel : option (gmap string string);
  loginConfig : option (gmap string string);
  storageServerUrl : option string;
  storageKey : option string;
  webauthnTransports : option (list string);
  sessionTime : option Z;
  sessionNamespace : option string;
}.

(** [a === b] on an optional string property and a string constant. *)
Definition strict_eq (a : option string) (b : string) : bool :=
  bool_decide (a = Some b).

(** A template literal prints [undefined] for a missing property. *)
Definition interpolate (o : option string) : string := default "undefined" o.

(** ** The page *)

Record Location := {
  protocol : string;
  host : string;
  pathname : string;
  origin : string;
  href : string;
}.

Definition set_href (url : string) (l : Location) : Location :=
  {| protocol := protocol l; host := host l; pathname := pathname l;
     origin := origin l; href := url |}.

(** ** The collaborators *)

(** [OpenloginSessionManager]: the client of the session store, bound to a
    server, a namespace, a lifetime and a session key.  [sessionKey] is the
    property the class reads and assigns; a new client holds the [sessionId]
    it was given. *)
Record SessionManager := {
  sessionServerBaseUrl : option string;
  sessionNamespaceOf : option string;
  sessionTimeOf : option Z;
  sessionKey : option string;
}.

#[export] Instance SessionManager_to_boolean : ToBoolean SessionManager := λ _, true.

Definition set_sessionKey (k : string) (m : SessionManager) : SessionManager :=
  {| sessionServerBaseUrl := sessionServerBaseUrl m;
     sessionNamespaceOf := sessionNamespaceOf m;
     sessionTimeOf := sessionTimeOf m;
     sessionKey := Some k |}.

(** [BrowserStorage.getInstance(storageKey, storageType)]: a handle on one
    persisted object of string properties. *)
Record BrowserStorage := {
  storeKey : string;
  storeType : option string;
}.

Definition store_id (h : BrowserStorage) : string * option string :=
  (storeKey h, storeType h).

Abbreviation LoginParams := (gmap string string).

(** The payload of a login request: [{ options, params }]. *)
Record LoginRequest := {
  request_options : OpenLoginOptions;
  request_params : LoginParams;
}.

(** What the popup window does after it was opened: of the close event, the
    message on the channel and the failure of the channel, the one that
    comes first settles the promise of [login]. *)
Inductive PopupOutcome :=
| PopupClosed
| ChannelMessage (sessionId : string)
| ChannelError (e : exn).

(** Every call that leaves the class. *)
Inductive Event :=
| StorageOpen (h : BrowserStorage)
| StorageGet (h : BrowserStorage) (name : string)
| StorageSet (h : BrowserStorage) (name data : string)
| ConsoleLog (message : string)
| LogError (message : string) (e : exn)
| HashQuery (replaceUrl : bool)
| RandomSessionKey
| CreateSession (m : SessionManager) (payload : LoginRequest)
| AuthorizeSession (m : SessionManager)
| InvalidateSession (m : SessionManager)
| Navigate (url : string)
| PopupOpen (url : string) (channel : string).

(** The world outside the object: the page, what the storage adapter has
    persisted, how many random keys were drawn, and the calls made so far
    (oldest first). *)
Record World := {
  location : Location;
  storage : gmap (string * option string) (gmap string string);
  drawn : nat;
  trace : list Event;
}.

(** What the collaborators answer.  The two URL utilities are functions of
    [./utils], which is not part of the file; they are parameters here. *)
Record Env := {
  getHashQueryParams : bool → Location → gmap string string;
  constructURL : string → list (string * string) → string;
  generateRandomSessionKey : nat → string;
  createSession : SessionManager → LoginRequest → option exn;
  authorizeSession : SessionManager → exn + OpenloginSessionData;
  invalidateSession : SessionManager → option exn;
  popupOutcome : string → string → PopupOutcome;
}.

(** ** The object *)

Record OpenLogin := {
  state : OpenloginSessionData;
  sessionManager : option SessionManager;
  currentStorage : option BrowserStorage;
  options : OpenLoginOptions;
}.

Definition _storageBaseKey : string := "openlogin_store".

(** An object in its world: what a method runs on. *)
Record Machine := {
  self : OpenLogin;
  world : World;
}.

(** ** State changes *)

Definition with_state (st : OpenloginSessionData) (o : OpenLogin) : OpenLogin :=
  {| state := st; sessionManager := sessionManager o;
     currentStorage := currentStorage o; options := options o |}.

Definition with_sessionManager (m : SessionManager) (o : OpenLogin) : OpenLogin :=
  {| state := state o; sessionManager := Some m;
     currentStorage := currentStorage o; options := options o |}.

Definition with_currentStorage (h : BrowserStorage) (o : OpenLogin) : OpenLogin :=
  {| state := state o; sessionManager := sessionManager o;
     currentStorage := Some h; options := options o |}.

Definition record_event (e : Event) (w : World) : World :=
  {| location := location w; storage := storage w; drawn := drawn w;
     trace := trace w ++ [e] |}.

Definition store_set (h : BrowserStorage) (name data : string) (w : World) : World :=
  {| location := location w;
     storage := <[store_id h := <[name := data]> (default ∅ (storage w !! store_id h))]> (storage w);
     drawn := drawn w; trace := trace w |}.

Definition store_get (h : BrowserStorage) (name : string) (w : World) : option string :=
  storage w !! store_id h ≫= (.!! name).

Definition navigate (url : string) (w : World) : World :=
  {| location := set_href url (location w); storage := storage w;
     drawn := drawn w; trace := trace w |}.

Definition draw (w : World) : World :=
  {| location := location w; storage := storage w; drawn := S (drawn w);
     trace := trace w |}.

Definition on_self (f : OpenLogin → OpenLogin) : M Machine unit :=
  modify (λ mc, {| self := f (self mc); world := world mc |}).

Definition on_world (f : World → World) : M Machine unit :=
  modify (λ mc, {| self := self mc; world := f (world mc) |}).

Definition emit (e : Event) : M Machine unit := on_world (record_event e).

(** Reading a property of [this.sessionManager] or calling a method of
    [this.currentStorage]: both fields are declared without an initialiser
    and are [undefined] until [init] has assigned them. *)
Definition the_sessionManager (property : string) : M Machine SessionManager :=
  o ← gets self;
  match sessionManager o with
  | Some m => mret m
  | None => throw (TypeError ("Cannot read properties of undefined (reading '" +:+ property +:+ "')"))
  end.

Definition the_currentStorage (property : string) : M Machine BrowserStorage :=
  o ← gets self;
  match currentStorage o with
  | Some h => mret h
  | None => throw (TypeError ("Cannot read properties of undefined (reading '" +:+ property +:+ "')"))
  end.

(** [this.currentStorage.get(name)] and [this.currentStorage.set(name, data)] *)
Definition storage_get (h : BrowserStorage) (name : string) : M Machine (option string) :=
  emit (StorageGet h name);;
  gets (λ mc, store_get h name (world mc)).

Definition storage_set (h : BrowserStorage) (name data : string) : M Machine unit :=
  emit (StorageSet h name data);;
  on_world (store_set h name data).

(** ** The constructor *)

Definition network_sdkUrl (options : OpenLoginOptions) : option string :=
  if negb (to_boolean (sdkUrl options)) then
    if strict_eq (network options) OPENLOGIN_NETWORK.MAINNET then Some "https://app.openlogin.com"
    else if strict_eq (network options) OPENLOGIN_NETWORK.CYAN then Some "https://cyan.openlogin.com"
    else if strict_eq (network options) OPENLOGIN_NETWORK.TESTNET then Some "https://beta.openlogin.com"
    else if strict_eq (network options) OPENLOGIN_NETWORK.SK_TESTNET then Some "https://beta-sk.openlogin.com"
    else if strict_eq (network options) OPENLOGIN_NETWORK.CELESTE then Some "https://celeste.openlogin.com"
    else if strict_eq (network options) OPENLOGIN_NETWORK.AQUA then Some "https://aqua.openlogin.com"
    else if strict_eq (network options) OPENLOGIN_NETWORK.DEVELOPMENT then Some "http://localhost:3000"
    else sdkUrl options
  else sdkUrl options.

Definition constructor (options : OpenLoginOptions) : M World OpenLogin :=
  let url := network_sdkUrl options in
  if negb (to_boolean url) then throw (Error "unspecified network and sdkUrl")
  else
    window ← gets location;
    mret {|
      state := ∅;
      sessionManager := None;
      currentStorage := None;
      options := {|
        sdkUrl := url;
        network := network options;
        redirectUrl := or_default (redirectUrl options)
                         (protocol window +:+ "//" +:+ host window +:+ pathname window);
        uxMode := or_default (uxMode options) UX_MODE.REDIRECT;
        replaceUrlOnRedirect := or_default (replaceUrlOnRedirect options) true;
        originData := or_default (originData options) {[ origin window := "" ]};
        whiteLabel := or_default (whiteLabel options) ∅;
        loginConfig := or_default (loginConfig options) ∅;
        storageServerUrl := or_default (storageServerUrl options) "https://broadcast-server.tor.us";
        storageKey := or_default (storageKey options) "local";
        webauthnTransports := or_default (webauthnTransports options) ["internal"];
        sessionTime := or_default (sessionTime options) 86400%Z;
        sessionNamespace := sessionNamespace options;
      |};
    |}.

(** ** Accessors *)

(** [this.state[field] ? this.state[field].padStart(64, "0") : ""].  An
    object has no [padStart]; the session data type rules that case out. *)
Definition padded (field : string) (o : OpenLogin) : Completion string :=
  match state o !! field with
  | None => Returned ""
  | Some (VString s) => if to_boolean s then Returned (padStart 64 "0" s) else Returned ""
  | Some (VObject _) => Thrown (TypeError ("this.state." +:+ field +:+ ".padStart is not a function"))
  end.

Definition privKey : OpenLogin → Completion string := padded "privKey".
Definition coreKitKey : OpenLogin → Completion string := padded "coreKitKey".

(** A getter read inside a method. *)
Definition read {A} (getter : OpenLogin → Completion A) : M Machine A :=
  λ mc, (getter (self mc), mc).

Definition updateState (data : OpenloginSessionData) : M Machine unit :=
  on_self (λ o, with_state (spread (state o) data) o).

(** ** The methods *)

Section Methods.
Context (env : Env).

(** [new OpenloginSessionManager({ ... })] as the class calls it. *)
Definition new_session_manager (options : OpenLoginOptions) (time : option Z)
    (sessionId : option string) : SessionManager :=
  {| sessionServerBaseUrl := storageServerUrl options;
     sessionNamespaceOf := sessionNamespace options;
     sessionTimeOf := time;
     sessionKey := sessionId |}.

(** The three awaited calls on a session manager. *)
Definition sm_authorizeSession (m : SessionManager) : M Machine OpenloginSessionData :=
  emit (AuthorizeSession m);;
  match authorizeSession env m with
  | inr data => mret data
  | inl err => throw err
  end.

Definition sm_invalidateSession (m : SessionManager) : M Machine unit :=
  emit (InvalidateSession m);;
  match invalidateSession env m with
  | None => mret tt
  | Some err => throw err
  end.

Definition sm_createSession (m : SessionManager) (payload : LoginRequest) : M Machine unit :=
  emit (CreateSession m payload);;
  match createSession env m payload with
  | None => mret tt
  | Some err => throw err
  end.

Definition _authorizeSession : M Machine OpenloginSessionData :=
  try_catch
    (m ← the_sessionManager "sessionKey";
     if negb (to_boolean (sessionKey m)) then mret ∅
     else sm_authorizeSession m)
    (λ err, emit (LogError "authorization failed" err);; mret ∅).

Definition init : M Machine unit :=
  o ← gets self;
  let storage_key :=
    if to_boolean (sessionNamespace (options o))
    then _storageBaseKey +:+ "_" +:+ interpolate (sessionNamespace (options o))
    else _storageBaseKey in
  let store := {| storeKey := storage_key; storeType := storageKey (options o) |} in
  emit (StorageOpen store);;
  on_self (with_currentStorage store);;
  sessionId ← storage_get store "sessionId";
  on_self (with_sessionManager
             (new_session_manager (options o) (sessionTime (options o)) sessionId));;
  (if strict_eq (network (options o)) OPENLOGIN_NETWORK.TESTNET
   then emit (ConsoleLog "%c WARNING! You are on testnet. Please set network: 'mainnet' in production")
   else mret tt);;
  let replaceUrl := default false (replaceUrlOnRedirect (options o)) in
  emit (HashQuery replaceUrl);;
  params ← gets (λ mc, getHashQueryParams env replaceUrl (location (world mc)));
  (if to_boolean (params !! "sessionId")
   then
     h ← the_currentStorage "set";
     storage_set h "sessionId" (default "" (params !! "sessionId"));;
     m ← the_sessionManager "sessionKey";
     on_self (with_sessionManager (set_sessionKey (default "" (params !! "sessionId")) m))
   else mret tt);;
  m ← the_sessionManager "sessionKey";
  if to_boolean (sessionKey m)
  then
    data ← _authorizeSession;
    updateState data
  else mret tt.
Definition getLoginId (loginParams : LoginParams) : M Machine string :=
  o ← gets self;
  if negb (to_boolean (sessionManager o))
  then throw (Error "session manager not initialized. please call init first")
  else
    let dataObject := {| request_options := options o; request_params := loginParams |} in
    emit RandomSessionKey;;
    loginId ← gets (λ mc, generateRandomSessionKey env (drawn (world mc)));
    on_world draw;;
    let loginSessionMgr := new_session_manager (options o) (Some 600%Z) (Some loginId) in
    sm_createSession loginSessionMgr dataObject;;
    mret loginId.

(** The promise of [login]: [None] is [undefined], [Some k] is
    [{ privKey: k }].  In redirect mode the assignment to
    [window.location.href] is a call like any other, after which the method
    runs its [return undefined]. *)
Definition login (params : option LoginParams) : M Machine (option string) :=
  if negb (to_boolean params) || negb (to_boolean (params ≫= (.!! "loginProvider")))
  then throw (Error "Please pass loginProvider in params")
  else
    let params := default ∅ params in
    o ← gets self;
    let defaultParams : LoginParams :=
      match redirectUrl (options o) with
      | Some url => {[ "redirectUrl" := url ]}
      | None => ∅
      end in
    let loginParams : LoginParams :=
      spread (spread {[ "loginProvider" := default "" (params !! "loginProvider") ]}
                     defaultParams)
             params in
    loginId ← getLoginId loginParams;
    if strict_eq (uxMode (options o)) UX_MODE.REDIRECT
    then
      let loginUrl := constructURL env (interpolate (sdkUrl (options o)) +:+ "/start")
                                   [("loginId", loginId)] in
      emit (Navigate loginUrl);;
      on_world (navigate loginUrl);;
      mret None
    else
      let loginUrl := constructURL env (interpolate (sdkUrl (options o)) +:+ "/popup-window")
                                   [("loginId", loginId)] in
      emit (PopupOpen loginUrl loginId);;
      match popupOutcome env loginUrl loginId with
      | PopupClosed => throw (Error "user closed popup")
      | ChannelError err => throw err
      | ChannelMessage sessionId =>
          m ← the_sessionManager "sessionKey";
          on_self (with_sessionManager (set_sessionKey sessionId m));;
          sessionData ← sm_authorizeSession (set_sessionKey sessionId m);
          updateState sessionData;;
          key ← read privKey;
          mret (Some key)
      end.

Definition logged_out_userInfo : gmap string string :=
  {[ "name" := ""; "profileImage" := ""; "dappShare" := ""; "idToken" := "";
     "oAuthIdToken" := ""; "oAuthAccessToken" := ""; "appState" := "";
     "email" := ""; "verifier" := ""; "verifierId" := "";
     "aggregateVerifier" := ""; "typeOfLogin" := "" ]}.

Definition logged_out_state : OpenloginSessionData :=
  {[ "privKey" := VString ""; "coreKitKey" := VString "";
     "coreKitEd25519PrivKey" := VString ""; "ed25519PrivKey" := VString "";
     "walletKey" := VString ""; "oAuthPrivateKey" := VString "";
     "tKey" := VString ""; "userInfo" := VObject logged_out_userInfo ]}.

Definition logout : M Machine unit :=
  m ← the_sessionManager "sessionKey";
  if negb (to_boolean (sessionKey m)) then throw (Error "User not logged in")
  else
    sm_invalidateSession m;;
    updateState logged_out_state;;
    h ← the_currentStorage "set";
    storage_set h "sessionId" "".

(** [None] is [undefined]: the state holds no [userInfo]. *)
Definition getUserInfo : M Machine (option value) :=
  key ← read privKey;
  if to_boolean key then gets (λ mc, state (self mc) !! "userInfo")
  else throw (Error "user should be logged in to fetch userInfo").
End Methods.

(** ** Sample configurations, pages and collaborators

    Concrete inputs on which the properties below are exercised. *)

Definition mainnet_options : OpenLoginOptions :=
  {| sdkUrl := None; network := Some "mainnet"; redirectUrl := None;
     uxMode := None; replaceUrlOnRedirect := None; originData := None;
     whiteLabel := None; loginConfig := None; storageServerUrl := None;
     storageKey := None; webauthnTransports := None; sessionTime := None;
     sessionNamespace := None |}.

(** No service URL and no network at all. *)
Definition bare_options : OpenLoginOptions :=
  {| sdkUrl := None; network := None; redirectUrl := None;
     uxMode := None; replaceUrlOnRedirect := None; originData := None;
     whiteLabel := None; loginConfig := None; storageServerUrl := None;
     storageKey := None; webauthnTransports := None; sessionTime := None;
     sessionNamespace := None |}.

Definition dapp_location : Location :=
  {| protocol := "https:"; host := "dapp.io"; pathname := "/app";
     origin := "https://dapp.io"; href := "https://dapp.io/app" |}.

Definition empty_world : World :=
  {| location := dapp_location; storage := ∅; drawn := 0; trace := [] |}.

(** What [new OpenLogin(mainnet_options)] holds on the page above. *)
Definition mainnet_defaults : OpenLoginOptions :=
  {| sdkUrl := Some "https://app.openlogin.com"; network := Some "mainnet";
     redirectUrl := Some "https://dapp.io/app"; uxMode := Some "redirect";
     replaceUrlOnRedirect := Some true;
     originData := Some {[ "https://dapp.io" := "" ]};
     whiteLabel := Some ∅; loginConfig := Some ∅;
     storageServerUrl := Some "https://broadcast-server.tor.us";
     storageKey := Some "local"; webauthnTransports := Some ["internal"];
     sessionTime := Some 86400%Z; sessionNamespace := None |}.

Definition fresh_object : OpenLogin :=
  {| state := ∅; sessionManager := None; currentStorage := None;
     options := mainnet_defaults |}.

Definition object_with_state (st : OpenloginSessionData) : OpenLogin :=
  with_state st fresh_object.

(** A key of 65 characters. *)
Definition overlong_key : string := String "1" (zeros 64).

(** The network identifiers the constructor recognises. *)
Definition supported_networks : list string :=
  [ OPENLOGIN_NETWORK.MAINNET; OPENLOGIN_NETWORK.CYAN; OPENLOGIN_NETWORK.TESTNET;
    OPENLOGIN_NETWORK.SK_TESTNET; OPENLOGIN_NETWORK.CELESTE; OPENLOGIN_NETWORK.AQUA;
    OPENLOGIN_NETWORK.DEVELOPMENT ].

(** The documented table of well-known service URLs, written from the
    documentation and not from the constructor. *)
Definition documented_url (network : string) : option string :=
  if String.eqb network "mainnet" then Some "https://app.openlogin.com"
  else if String.eqb network "cyan" then Some "https://cyan.openlogin.com"
  else if String.eqb network "testnet" then Some "https://beta.openlogin.com"
  else if String.eqb network "sk_testnet" then Some "https://beta-sk.openlogin.com"
  else if String.eqb network "celeste" then Some "https://celeste.openlogin.com"
  else if String.eqb network "aqua" then Some "https://aqua.openlogin.com"
  else if String.eqb network "development" then Some "http://localhost:3000"
  else None.

(** Modelled from the spec: the declarations of [OpenloginSessionData] and
    [OpenloginUserInfo] are not part of the file.  Session data holds a
    private key, a secondary core key, auxiliary derived keys and the user
    profile; these are the fields under the names the class uses for them. *)
Definition session_key_fields : list string :=
  [ "privKey"; "coreKitKey"; "coreKitEd25519PrivKey"; "ed25519PrivKey";
    "walletKey"; "oAuthPrivateKey"; "tKey" ].


(** The session key an object works with, if it has one. *)
Definition active_session_key (o : OpenLogin) : option string :=
  match sessionManager o ≫= sessionKey with
  | Some k => if to_boolean k then Some k else None
  | None => None
  end.

Definition local_store : BrowserStorage :=
  {| storeKey := "openlogin_store"; storeType := Some "local" |}.

(** An object after [init], working with session key [key] and holding
    state [st]. *)
Definition initialised_object (key : option string) (st : OpenloginSessionData) : OpenLogin :=
  {| state := st;
     sessionManager := Some (new_session_manager mainnet_defaults (Some 86400%Z) key);
     currentStorage := Some local_store;
     options := mainnet_defaults |}.

(** Collaborators: the page hash delivers [hash], the session store answers
    [authorized] to an authorization and [invalidated] to an invalidation,
    login requests are accepted under the key ["login-request-1"], and the
    popup is closed by the user. *)
Definition sample_env (hash : gmap string string)
    (authorized : exn + OpenloginSessionData) (invalidated : option exn) : Env :=
  {| getHashQueryParams := λ _ _, hash;
     constructURL := λ baseURL hash,
       baseURL +:+ "#" +:+ match hash with
                          | (name, data) :: _ => name +:+ "=" +:+ data
                          | [] => ""
                          end;
     generateRandomSessionKey := λ _, "login-request-1";
     createSession := λ _ _, None;
     authorizeSession := λ _, authorized;
     invalidateSession := λ _, invalidated;
     popupOutcome := λ _ _, PopupClosed |}.

Definition session_expired : exn := Error "session expired".

Definition alice_session : OpenloginSessionData :=
  {[ "privKey" := VString "a11ce";
     "userInfo" := VObject {[ "name" := "Alice"; "email" := "alice@dapp.io" ]} ]}.

Definition in_world (o : OpenLogin) (w : World) : Machine :=
  {| self := o; world := w |}.

(** ** What [init] works with *)

(** The storage [init] attaches: under the base key, qualified by the
    session namespace when there is one. *)
Definition init_store (o : OpenLogin) : BrowserStorage :=
  {| storeKey := if to_boolean (sessionNamespace (options o))
                 then _storageBaseKey +:+ "_" +:+ interpolate (sessionNamespace (options o))
                 else _storageBaseKey;
     storeType := storageKey (options o) |}.

(** The session key [init] recovers from that storage. *)
Definition recovered_key (o : OpenLogin) (w : World) : option string :=
  store_get (init_store o) "sessionId" w.

(** The parameters [init] reads from the hash of the page. *)
Definition delivered_params (env : Env) (o : OpenLogin) (w : World) : gmap string string :=
  getHashQueryParams env (default false (replaceUrlOnRedirect (options o))) (location w).

(** The session manager of [init] once it holds the session key [k]. *)
Definition init_manager (o : OpenLogin) (k : option string) : SessionManager :=
  new_session_manager (options o) (sessionTime (options o)) k.

Definition testnet_warning (o : OpenLogin) : list Event :=
  if strict_eq (network (options o)) OPENLOGIN_NETWORK.TESTNET
  then [ConsoleLog "%c WARNING! You are on testnet. Please set network: 'mainnet' in production"]
  else [].

(** The calls of the authorization step of [init], and the state it leaves. *)
Definition authorization_events (env : Env) (m : SessionManager) : list Event :=
  AuthorizeSession m ::
  match authorizeSession env m with
  | inl err => [LogError "authorization failed" err]
  | inr _ => []
  end.

Definition authorized_state (env : Env) (m : SessionManager)
    (st : OpenloginSessionData) : OpenloginSessionData :=
  match authorizeSession env m with
  | inl _ => st
  | inr data => spread st data
  end.

Definition with_trace (events : list Event) (w : World) : World :=
  {| location := location w; storage := storage w; drawn := drawn w;
     trace := trace w ++ events |}.

(** A world whose storage holds the session key [key]. *)
Definition world_with_stored_key (key : string) : World :=
  {| location := dapp_location;
     storage := {[ store_id local_store := {[ "sessionId" := key ]} ]};
     drawn := 0; trace := [] |}.

(** ** What [login] works with *)

(** The parameters [login] sends with the login request: the caller's, over
    the default redirect URL of the configuration. *)
Definition merged_login_params (o : OpenLogin) (params : LoginParams) : LoginParams :=
  spread (spread {[ "loginProvider" := default "" (params !! "loginProvider") ]}
                 match redirectUrl (options o) with
                 | Some url => {[ "redirectUrl" := url ]}
                 | None => ∅
                 end)
         params.

(** The URL of the login entry point of the service, with the login request
    in its hash. *)
Definition start_url (env : Env) (o : OpenLogin) (loginId : string) : string :=
  constructURL env (interpolate (sdkUrl (options o)) +:+ "/start") [("loginId", loginId)].

Definition google_login : LoginParams := {[ "loginProvider" := "google" ]}.

(** ** Further sample inputs *)

(** A service URL of the caller's own, an unknown network, the URL rewrite
    switched off and a session lifetime of zero. *)
Definition custom_options : OpenLoginOptions :=
  {| sdkUrl := Some "https://auth.example.org"; network := Some "moonnet";
     redirectUrl := Some "https://dapp.io/done"; uxMode := Some "popup";
     replaceUrlOnRedirect := Some false; originData := None;
     whiteLabel := None; loginConfig := None; storageServerUrl := None;
     storageKey := Some "session"; webauthnTransports := None;
     sessionTime := Some 0%Z; sessionNamespace := Some "games" |}.

(** The options an object keeps are complete: each property with a default
    holds a truthy value. *)
Definition complete_options (config : OpenLoginOptions) : Prop :=
  to_boolean (sdkUrl config) = true ∧
  to_boolean (redirectUrl config) = true ∧
  to_boolean (uxMode config) = true ∧
  replaceUrlOnRedirect config = Some true ∧
  to_boolean (originData config) = true ∧
  to_boolean (whiteLabel config) = true ∧
  to_boolean (loginConfig config) = true ∧
  to_boolean (storageServerUrl config) = true ∧
  to_boolean (storageKey config) = true ∧
  to_boolean (webauthnTransports config) = true ∧
  to_boolean (sessionTime config) = true.

(** The events a run adds to the trace of the world. *)
Definition new_events (before after : World) : list Event :=
  drop (length (trace before)) (trace after).

(** The calls [init] makes before it looks at what the hash delivered. *)
Definition init_prologue (o : OpenLogin) : list Event :=
  [StorageOpen (init_store o); StorageGet (init_store o) "sessionId"]
  ++ testnet_warning o
  ++ [HashQuery (default false (replaceUrlOnRedirect (options o)))].

(** The calls of [init] after that: storing a delivered key, asking the
    session store, and logging its failure. *)
Definition init_epilogue_event (e : Event) : Prop :=
  (∃ h data, e = StorageSet h "sessionId" data) ∨
  (∃ m, e = AuthorizeSession m) ∨
  (∃ err, e = LogError "authorization failed" err).


Definition testnet_object : OpenLogin :=
  {| state := ∅; sessionManager := None; currentStorage := None;
     options :=
       {| sdkUrl := Some "https://beta.openlogin.com"; network := Some "testnet";
          redirectUrl := Some "https://dapp.io/app"; uxMode := Some "redirect";
          replaceUrlOnRedirect := Some true;
          originData := Some {[ "https://dapp.io" := "" ]};
          whiteLabel := Some ∅; loginConfig := Some ∅;
          storageServerUrl := Some "https://broadcast-server.tor.us";
          storageKey := Some "local"; webauthnTransports := Some ["internal"];
          sessionTime := Some 86400%Z; sessionNamespace := None |} |}.

(** The session manager [getLoginId] creates for a login request, and the
    payload it stores with it. *)
Definition login_request_manager (env : Env) (o : OpenLogin) (w : World) : SessionManager :=
  new_session_manager (options o) (Some 600%Z) (Some (generateRandomSessionKey env (drawn w))).

Definition login_request (o : OpenLogin) (params : LoginParams) : LoginRequest :=
  {| request_options := options o; request_params := merged_login_params o params |}.

(** The URL [login] opens in the popup window. *)
Definition popup_url (env : Env) (o : OpenLogin) (loginId : string) : string :=
  constructURL env (interpolate (sdkUrl (options o)) +:+ "/popup-window") [("loginId", loginId)].

(** An initialised object in popup mode. *)
Definition popup_object (key : option string) (st : OpenloginSessionData) : OpenLogin :=
  {| state := st;
     sessionManager := Some (new_session_manager mainnet_defaults (Some 86400%Z) key);
     currentStorage := Some local_store;
     options :=
       {| sdkUrl := Some "https://app.openlogin.com"; network := Some "mainnet";
          redirectUrl := Some "https://dapp.io/app"; uxMode := Some "popup";
          replaceUrlOnRedirect := Some true;
          originData := Some {[ "https://dapp.io" := "" ]};
          whiteLabel := Some ∅; loginConfig := Some ∅;
          storageServerUrl := Some "https://broadcast-server.tor.us";
          storageKey := Some "local"; webauthnTransports := Some ["internal"];
          sessionTime := Some 86400%Z; sessionNamespace := None |} |}.

(** Collaborators of a popup login: the popup does [outcome], the session
    store answers [authorized] and takes the login request unless [refused]. *)
Definition popup_env (outcome : PopupOutcome)
    (authorized : exn + OpenloginSessionData) (refused : option exn) : Env :=
  {| getHashQueryParams := λ _ _, ∅;
     constructURL := λ baseURL hash,
       baseURL +:+ "#" +:+ match hash with
                          | (name, data) :: _ => name +:+ "=" +:+ data
                          | [] => ""
                          end;
     generateRandomSessionKey := λ _, "login-request-1";
     createSession := λ _ _, refused;
     authorizeSession := λ _, authorized;
     invalidateSession := λ _, None;
     popupOutcome := λ _ _, outcome |}.

Definition store_unreachable : exn := Error "session store unreachable".

(** A session whose user info holds a name only. *)
Definition bob_session : OpenloginSessionData :=
  {[ "userInfo" := VObject {[ "name" := "Bob" ]} ]}.

(** * Properties *)

(** ** Running a method *)

Lemma bind_returned {S A B} (m : M S A) (k : A → M S B) s a s' :
  m s = (Returned a, s') → (m ≫= k) s = k a s'.
Proof. intros H. unfold mbind, M_bind. by rewrite H. Qed.

Lemma bind_thrown {S A B} (m : M S A) (k : A → M S B) s e s' :
  m s = (Thrown e, s') → (m ≫= k) s = (Thrown e, s').
Proof. intros H. unfold mbind, M_bind. by rewrite H. Qed.

(** ** Strings *)

Lemma append_cons c s t : String c s +:+ t = String c (s +:+ t).
Proof. reflexivity. Qed.

Lemma length_append s t : String.length (s +:+ t) = String.length s + String.length t.
Proof.
  induction s as [|c s IH]; [reflexivity|].
  rewrite append_cons. simpl. by rewrite IH.
Qed.

Lemma length_zeros n : String.length (zeros n) = n.
Proof. induction n as [|n IH]; simpl; congruence. Qed.

(** Cycling through the one-character fill ["0"] writes zeros, wherever in
    the fill the cycle starts. *)
Lemma fill_cycle_zeros n rest :
  rest = "" ∨ rest = "0" → fill_cycle n "0" rest = zeros n.
Proof.
  revert rest. induction n as [|n IH]; intros rest Hrest; [reflexivity|].
  destruct Hrest as [-> | ->]; simpl; f_equal; apply IH; auto.
Qed.

Lemma padStart_short s :
  String.length s < 64 → padStart 64 "0" s = zeros (64 - String.length s) +:+ s.
Proof.
  intros Hlen. unfold padStart.
  destruct (Nat.leb_spec 64 (String.length s)) as [Hle|_]; [lia|].
  change (to_boolean "0") with true. cbv iota.
  rewrite fill_cycle_zeros; auto.
Qed.

Lemma padStart_long (n : nat) (fill s : string) :
  (n ≤ String.length s)%nat → padStart n fill s = s.
Proof.
  intros Hlen. unfold padStart.
  by destruct (Nat.leb_spec n (String.length s)) as [_|Hlt]; [|lia].
Qed.

Lemma string_to_boolean_true (s : string) : to_boolean s = true ↔ s ≠ "".
Proof. destruct s; cbn; split; congruence. Qed.

Lemma string_to_boolean_false (s : string) : to_boolean s = false ↔ s = "".
Proof. destruct s; cbn; split; congruence. Qed.

(** The padded accessors on a key that fits the width. *)
Lemma padded_fits field o s :
  state o !! field = Some (VString s) → s ≠ "" → (String.length s ≤ 64)%nat →
  padded field o = Returned (zeros (64 - String.length s) +:+ s).
Proof.
  intros Hf Hs Hlen. unfold padded. rewrite Hf.
  apply string_to_boolean_true in Hs. rewrite Hs.
  destruct (decide (String.length s = 64)) as [Heq|Hne].
  - rewrite padStart_long by lia. by rewrite Heq.
  - by rewrite padStart_short by lia.
Qed.

Lemma padded_overlong field o s :
  state o !! field = Some (VString s) → 64 < String.length s →
  padded field o = Returned s.
Proof.
  intros Hf Hlen. unfold padded. rewrite Hf.
  destruct s as [|c s]; [simpl in Hlen; lia|].
  change (to_boolean (String c s)) with true. cbv iota.
  by rewrite padStart_long by lia.
Qed.

Lemma padded_unset field o :
  state o !! field = None ∨ state o !! field = Some (VString "") →
  padded field o = Returned "".
Proof. intros [Hf|Hf]; unfold padded; by rewrite Hf. Qed.

(** ** The key accessors *)

(** C2, as amended: on a non-empty key of at most 64 characters [privKey]
    and [coreKitKey] return the key behind as many ['0'] characters as make
    64 characters; a key longer than that is returned as it is; an unset or
    empty key gives the empty string. *)
Theorem key_accessors_pad_to_width (o : OpenLogin) :
  (∀ s, state o !! "privKey" = Some (VString s) → s ≠ "" →
        (String.length s ≤ 64)%nat →
        privKey o = Returned (zeros (64 - String.length s) +:+ s) ∧
        String.length (zeros (64 - String.length s) +:+ s) = 64) ∧
  (∀ s, state o !! "coreKitKey" = Some (VString s) → s ≠ "" →
        (String.length s ≤ 64)%nat →
        coreKitKey o = Returned (zeros (64 - String.length s) +:+ s) ∧
        String.length (zeros (64 - String.length s) +:+ s) = 64) ∧
  (∀ s, state o !! "privKey" = Some (VString s) → 64 < String.length s →
        privKey o = Returned s) ∧
  (∀ s, state o !! "coreKitKey" = Some (VString s) → 64 < String.length s →
        coreKitKey o = Returned s) ∧
  (state o !! "privKey" = None ∨ state o !! "privKey" = Some (VString "") →
   privKey o = Returned "") ∧
  (state o !! "coreKitKey" = None ∨ state o !! "coreKitKey" = Some (VString "") →
   coreKitKey o = Returned "").
Proof.
  repeat split.
  - by apply padded_fits.
  - rewrite length_append, length_zeros. lia.
  - by apply padded_fits.
  - rewrite length_append, length_zeros. lia.
  - intros s. apply padded_overlong.
  - intros s. apply padded_overlong.
  - apply padded_unset.
  - apply padded_unset.
Qed.

(** The key ["abc"] comes back as 61 zeros and ["abc"]. *)
Lemma key_accessors_pad_abc :
  privKey (object_with_state {[ "privKey" := VString "abc" ]})
  = Returned "0000000000000000000000000000000000000000000000000000000000000abc".
Proof.
  destruct (key_accessors_pad_to_width
              (object_with_state {[ "privKey" := VString "abc" ]})) as [Hpad _].
  destruct (Hpad "abc") as [Hkey _].
  - reflexivity.
  - discriminate.
  - simpl. lia.
  - exact Hkey.
Defined.

(** C2 as stated fails: a key of 65 characters is non-empty and comes back
    with its 65 characters. *)
Lemma privKey_overlong_keeps_length :
  state (object_with_state {[ "privKey" := VString overlong_key ]}) !! "privKey"
    = Some (VString overlong_key) ∧
  overlong_key ≠ "" ∧
  ∃ r, privKey (object_with_state {[ "privKey" := VString overlong_key ]}) = Returned r ∧
       String.length r = 65 ∧ String.length r ≠ 64.
Proof.
  split; [reflexivity|]. split; [discriminate|].
  exists overlong_key. split; [|split; [reflexivity | discriminate]].
  apply padded_overlong; [reflexivity | simpl; lia].
Qed.

(** ** Construction *)

Lemma strict_eq_true a b : strict_eq a b = true ↔ a = Some b.
Proof. unfold strict_eq. apply bool_decide_eq_true. Qed.

Lemma strict_eq_false a b : strict_eq a b = false ↔ a ≠ Some b.
Proof. unfold strict_eq. apply bool_decide_eq_false. Qed.

(** Without a service URL and with a network outside the recognised ones the
    if-chain leaves the URL as it found it. *)
Lemma network_sdkUrl_unrecognised options :
  (∀ n, n ∈ supported_networks → network options ≠ Some n) →
  network_sdkUrl options = sdkUrl options.
Proof.
  intros Hnet. unfold network_sdkUrl.
  destruct (negb (to_boolean (sdkUrl options))); [|done].
  repeat match goal with
  | |- context [strict_eq ?a ?b] =>
      let H := fresh in
      destruct (strict_eq a b) eqn:H;
      [apply strict_eq_true in H; exfalso; apply (Hnet b);
       [unfold supported_networks; set_solver | exact H]|]
  end.
  done.
Qed.

(** C4: a configuration with no service URL and no recognised network makes
    the constructor throw its configuration error, and the world is as it
    was: nothing was read, written or called. *)
Theorem constructor_rejects_unresolvable (options : OpenLoginOptions) (w : World) :
  to_boolean (sdkUrl options) = false →
  (∀ n, n ∈ supported_networks → network options ≠ Some n) →
  constructor options w = (Thrown (Error "unspecified network and sdkUrl"), w).
Proof.
  intros Hurl Hnet. unfold constructor.
  rewrite (network_sdkUrl_unrecognised _ Hnet), Hurl. reflexivity.
Qed.

Lemma constructor_rejects_bare_options :
  constructor bare_options empty_world
  = (Thrown (Error "unspecified network and sdkUrl"), empty_world).
Proof.
  apply constructor_rejects_unresolvable.
  - reflexivity.
  - intros n _. discriminate.
Defined.

(** C5: for each supported network the constructor, given no service URL,
    returns an object whose configuration holds the documented URL of that
    network. *)
Theorem constructor_derives_documented_url
    (config : OpenLoginOptions) (w : World) (n : string) :
  to_boolean (sdkUrl config) = false →
  network config = Some n →
  n ∈ supported_networks →
  ∃ url o,
    documented_url n = Some url ∧
    constructor config w = (Returned o, w) ∧
    sdkUrl (options o) = Some url.
Proof.
  intros Hurl Hnet Hin.
  unfold supported_networks in Hin.
  repeat (apply elem_of_cons in Hin as [-> | Hin]);
    [..| by apply elem_of_nil in Hin];
    (eexists _, _; split; [reflexivity|];
     unfold constructor, network_sdkUrl; rewrite Hurl, Hnet; cbn;
     split; reflexivity).
Qed.

Lemma constructor_derives_mainnet_url :
  ∃ url o,
    documented_url "mainnet" = Some url ∧
    constructor mainnet_options empty_world = (Returned o, empty_world) ∧
    sdkUrl (options o) = Some url.
Proof.
  apply constructor_derives_documented_url.
  - reflexivity.
  - reflexivity.
  - unfold supported_networks. set_solver.
Defined.

(** ** Steps of a method *)

Lemma the_sessionManager_Some property mc m :
  sessionManager (self mc) = Some m →
  the_sessionManager property mc = (Returned m, mc).
Proof. intros H. unfold the_sessionManager, gets, mbind, M_bind. by rewrite H. Qed.

Lemma the_sessionManager_None property mc :
  sessionManager (self mc) = None →
  the_sessionManager property mc
  = (Thrown (TypeError ("Cannot read properties of undefined (reading '" +:+ property +:+ "')")), mc).
Proof. intros H. unfold the_sessionManager, gets, mbind, M_bind. by rewrite H. Qed.

Lemma the_currentStorage_Some property mc h :
  currentStorage (self mc) = Some h →
  the_currentStorage property mc = (Returned h, mc).
Proof. intros H. unfold the_currentStorage, gets, mbind, M_bind. by rewrite H. Qed.

Lemma store_get_set h name data w :
  store_get h name (store_set h name data w) = Some data.
Proof.
  unfold store_get, store_set. cbn.
  rewrite lookup_insert_eq. cbn. apply lookup_insert_eq.
Qed.

Lemma spread_lookup_r {V} (a b : gmap string V) k v :
  b !! k = Some v → spread a b !! k = Some v.
Proof. intros H. unfold spread. by apply lookup_union_Some_l. Qed.

Lemma spread_lookup_l {V} (a b : gmap string V) k :
  b !! k = None → spread a b !! k = a !! k.
Proof. intros H. unfold spread. by apply lookup_union_r. Qed.

Lemma spread_empty_r {V} (a : gmap string V) : spread a ∅ = a.
Proof. unfold spread. apply (left_id_L ∅ (∪)). Qed.

Lemma with_state_same o : with_state (state o) o = o.
Proof. by destruct o. Qed.

(** ** Login without a provider *)

(** C6: a [login] whose parameters are absent, or hold no [loginProvider]
    (or an empty one), throws the invalid-argument error and leaves object
    and world as they were: no event was added to the trace, so neither the
    network nor the session store was reached. *)
Theorem login_requires_provider (env : Env) (params : option LoginParams) (mc : Machine) :
  params = None ∨
  (∃ p, params = Some p ∧ (p !! "loginProvider" = None ∨ p !! "loginProvider" = Some "")) →
  login env params mc = (Thrown (Error "Please pass loginProvider in params"), mc).
Proof.
  intros [-> | (p & -> & [Hp | Hp])]; unfold login; cbn; by rewrite ?Hp.
Qed.

Lemma login_requires_provider_sample :
  login (sample_env ∅ (inl session_expired) None) (Some {[ "redirectUrl" := "https://dapp.io/back" ]})
        (in_world (initialised_object None ∅) empty_world)
  = (Thrown (Error "Please pass loginProvider in params"),
     in_world (initialised_object None ∅) empty_world).
Proof.
  apply login_requires_provider. right.
  exists {[ "redirectUrl" := "https://dapp.io/back" ]}. split; [reflexivity|].
  left. reflexivity.
Defined.

(** ** Logout *)

Lemma logout_not_logged_in env mc m :
  sessionManager (self mc) = Some m → to_boolean (sessionKey m) = false →
  logout env mc = (Thrown (Error "User not logged in"), mc).
Proof.
  intros Hm Hkey. unfold logout.
  rewrite (bind_returned _ _ _ _ _ (the_sessionManager_Some _ _ _ Hm)).
  by rewrite Hkey.
Qed.

Lemma logout_before_init env mc :
  sessionManager (self mc) = None →
  logout env mc
  = (Thrown (TypeError "Cannot read properties of undefined (reading 'sessionKey')"), mc).
Proof.
  intros Hm. unfold logout.
  by rewrite (bind_thrown _ _ _ _ _ (the_sessionManager_None _ _ Hm)).
Qed.

Lemma logout_invalidation_fails env mc m err :
  sessionManager (self mc) = Some m → to_boolean (sessionKey m) = true →
  invalidateSession env m = Some err →
  logout env mc
  = (Thrown err, {| self := self mc; world := record_event (InvalidateSession m) (world mc) |}).
Proof.
  intros Hm Hkey Hinv. unfold logout.
  rewrite (bind_returned _ _ _ _ _ (the_sessionManager_Some _ _ _ Hm)).
  rewrite Hkey. cbn. unfold sm_invalidateSession, mbind, M_bind, emit, on_world, modify.
  by rewrite Hinv.
Qed.

Lemma logout_succeeds env mc m h :
  sessionManager (self mc) = Some m → to_boolean (sessionKey m) = true →
  invalidateSession env m = None →
  currentStorage (self mc) = Some h →
  logout env mc
  = (Returned tt,
     {| self := with_state (spread (state (self mc)) logged_out_state) (self mc);
        world := store_set h "sessionId" ""
                   (record_event (StorageSet h "sessionId" "")
                      (record_event (InvalidateSession m) (world mc))) |}).
Proof.
  intros Hm Hkey Hinv Hh. unfold logout.
  rewrite (bind_returned _ _ _ _ _ (the_sessionManager_Some _ _ _ Hm)).
  rewrite Hkey. cbn.
  unfold sm_invalidateSession, updateState, the_currentStorage, storage_set,
    mbind, M_bind, mret, M_ret, emit, on_world, on_self, modify, gets.
  rewrite Hinv. cbn. by rewrite Hh.
Qed.

(** A logout that returns went through every step. *)
Lemma logout_returned env mc mc' :
  logout env mc = (Returned tt, mc') →
  ∃ m h,
    sessionManager (self mc) = Some m ∧ to_boolean (sessionKey m) = true ∧
    invalidateSession env m = None ∧ currentStorage (self mc) = Some h ∧
    mc' = {| self := with_state (spread (state (self mc)) logged_out_state) (self mc);
             world := store_set h "sessionId" ""
                        (record_event (StorageSet h "sessionId" "")
                           (record_event (InvalidateSession m) (world mc))) |}.
Proof.
  intros Hrun.
  destruct (sessionManager (self mc)) as [m|] eqn:Hm;
    [|rewrite (logout_before_init _ _ Hm) in Hrun; discriminate].
  destruct (to_boolean (sessionKey m)) eqn:Hkey;
    [|rewrite (logout_not_logged_in _ _ _ Hm Hkey) in Hrun; discriminate].
  destruct (invalidateSession env m) as [err|] eqn:Hinv;
    [rewrite (logout_invalidation_fails _ _ _ _ Hm Hkey Hinv) in Hrun; discriminate|].
  destruct (currentStorage (self mc)) as [h|] eqn:Hh.
  - rewrite (logout_succeeds _ _ _ _ Hm Hkey Hinv Hh) in Hrun.
    exists m, h. repeat split; congruence.
  - exfalso. revert Hrun. unfold logout.
    rewrite (bind_returned _ _ _ _ _ (the_sessionManager_Some _ _ _ Hm)).
    rewrite Hkey. cbn.
    unfold sm_invalidateSession, updateState, the_currentStorage, storage_set,
      mbind, M_bind, mret, M_ret, emit, on_world, on_self, modify, gets.
    rewrite Hinv. cbn. rewrite Hh. discriminate.
Qed.

Lemma logged_out_state_key_field f :
  f ∈ session_key_fields → logged_out_state !! f = Some (VString "").
Proof.
  unfold session_key_fields. intros Hin.
  repeat (apply elem_of_cons in Hin as [-> | Hin]); [..| by apply elem_of_nil in Hin];
    reflexivity.
Qed.



Lemma active_session_key_Some o m k :
  sessionManager o = Some m → active_session_key o = Some k →
  sessionKey m = Some k ∧ to_boolean (sessionKey m) = true.
Proof.
  unfold active_session_key. intros ->. cbn.
  destruct (sessionKey m) as [k'|]; [|discriminate].
  cbn. destruct (to_boolean k') eqn:Hk; [|discriminate].
  intros [= ->]. done.
Qed.

Lemma active_session_key_None o m :
  sessionManager o = Some m → active_session_key o = None →
  to_boolean (sessionKey m) = false.
Proof.
  unfold active_session_key. intros ->. cbn.
  destruct (sessionKey m) as [k'|]; [|done].
  cbn. by destruct (to_boolean k').
Qed.

(** The reset touches the fields it names and no other. *)
Lemma logout_keeps_unnamed_fields env mc mc' f :
  logout env mc = (Returned tt, mc') →
  f ∉ session_key_fields → f ≠ "userInfo" →
  state (self mc') !! f = state (self mc) !! f.
Proof.
  intros Hrun Hf Hinfo.
  destruct (logout_returned _ _ _ Hrun) as (m & h & _ & _ & _ & _ & ->). cbn.
  apply spread_lookup_l. unfold logged_out_state, session_key_fields in *.
  repeat (apply lookup_insert_None; split; [|set_solver]).
  apply lookup_empty.
Qed.



(** C10: with an active session key, an invalidation that fails makes
    [logout] fail with the same error; the object, and with it the state, is
    the one before the call, and so is everything the storage holds. *)
Theorem logout_untouched_when_invalidation_fails
    (env : Env) (mc : Machine) (m : SessionManager) (k : string) (err : exn) :
  sessionManager (self mc) = Some m →
  active_session_key (self mc) = Some k →
  invalidateSession env m = Some err →
  ∃ mc',
    logout env mc = (Thrown err, mc') ∧
    self mc' = self mc ∧
    state (self mc') = state (self mc) ∧
    storage (world mc') = storage (world mc) ∧
    (∀ h, store_get h "sessionId" (world mc') = store_get h "sessionId" (world mc)) ∧
    trace (world mc') = (trace (world mc) ++ [InvalidateSession m])%list.
Proof.
  intros Hm Hkey Hinv.
  destruct (active_session_key_Some _ _ _ Hm Hkey) as [_ Htruthy].
  eexists. split; [by apply logout_invalidation_fails|]. done.
Qed.

Lemma logout_untouched_sample :
  ∃ mc',
    logout (sample_env ∅ (inr alice_session) (Some session_expired))
           (in_world (initialised_object (Some "session-1") alice_session) empty_world)
    = (Thrown session_expired, mc') ∧
    self mc' = initialised_object (Some "session-1") alice_session ∧
    state (self mc') = alice_session ∧
    storage (world mc') = ∅ ∧
    (∀ h, store_get h "sessionId" (world mc') = store_get h "sessionId" empty_world) ∧
    trace (world mc')
    = [InvalidateSession (new_session_manager mainnet_defaults (Some 86400%Z) (Some "session-1"))].
Proof.
  apply (logout_untouched_when_invalidation_fails
           (sample_env ∅ (inr alice_session) (Some session_expired))
           (in_world (initialised_object (Some "session-1") alice_session) empty_world)
           (new_session_manager mainnet_defaults (Some 86400%Z) (Some "session-1"))
           "session-1" session_expired); reflexivity.
Defined.

(** ** Calls that need a session *)

Lemma getUserInfo_unauthenticated mc :
  state (self mc) !! "privKey" = None ∨ state (self mc) !! "privKey" = Some (VString "") →
  getUserInfo mc = (Thrown (Error "user should be logged in to fetch userInfo"), mc).
Proof.
  intros Hkey. unfold getUserInfo, read, mbind, M_bind.
  unfold privKey. by rewrite (padded_unset _ _ Hkey).
Qed.

Lemma getUserInfo_authenticated mc s :
  state (self mc) !! "privKey" = Some (VString s) → s ≠ "" →
  getUserInfo mc = (Returned (state (self mc) !! "userInfo"), mc).
Proof.
  intros Hkey Hs. unfold getUserInfo, read, mbind, M_bind, privKey, padded.
  rewrite Hkey. apply string_to_boolean_true in Hs. rewrite Hs.
  assert (to_boolean (padStart 64 "0" s) = true) as ->; [|reflexivity].
  apply string_to_boolean_true. intros Hpad.
  apply string_to_boolean_true in Hs.
  assert (String.length (padStart 64 "0" s) = 0) as Hlen by (by rewrite Hpad).
  destruct (decide (String.length s < 64)) as [Hlt|Hge].
  - rewrite padStart_short, length_append, length_zeros in Hlen by done. lia.
  - rewrite padStart_long in Hlen by lia. destruct s; [done | discriminate].
Qed.




(** ** Initialisation *)

(** Unfolds the monad and the state changes, so that a method applied to a
    machine reduces as far as the answers of the collaborators allow. *)
Ltac run_method :=
  unfold _authorizeSession, sm_authorizeSession, sm_invalidateSession,
    sm_createSession, try_catch, updateState, read,
    storage_get, storage_set, the_sessionManager, the_currentStorage,
    emit, on_world, on_self, modify, gets, throw, mbind, M_bind, mret, M_ret,
    with_state, with_sessionManager, with_currentStorage, set_sessionKey,
    new_session_manager, record_event, store_get, store_set, navigate, draw;
  cbn.

Ltac unfold_init :=
  unfold init, recovered_key, delivered_params, init_store, init_manager,
    testnet_warning, authorization_events, authorized_state, with_trace in *.

(** [init] on a page whose hash delivers the session key [sid]. *)
Lemma init_delivered env mc sid :
  delivered_params env (self mc) (world mc) !! "sessionId" = Some sid →
  sid ≠ "" →
  init env mc
  = (Returned tt,
     {| self :=
          {| state := authorized_state env (init_manager (self mc) (Some sid)) (state (self mc));
             sessionManager := Some (init_manager (self mc) (Some sid));
             currentStorage := Some (init_store (self mc));
             options := options (self mc) |};
        world :=
          with_trace
            ([StorageOpen (init_store (self mc));
              StorageGet (init_store (self mc)) "sessionId"]
             ++ testnet_warning (self mc)
             ++ [HashQuery (default false (replaceUrlOnRedirect (options (self mc))));
                 StorageSet (init_store (self mc)) "sessionId" sid]
             ++ authorization_events env (init_manager (self mc) (Some sid)))
            (store_set (init_store (self mc)) "sessionId" sid (world mc)) |}).
Proof.
  intros Hsid Hne. apply string_to_boolean_true in Hne.
  destruct mc as [o w]. unfold_init. cbn in Hsid. run_method.
  destruct (strict_eq (network (options o)) OPENLOGIN_NETWORK.TESTNET); cbn;
    repeat (progress (rewrite ?Hsid, ?Hne; cbn));
    destruct (authorizeSession env _); cbn;
    rewrite <- ?app_assoc, ?spread_empty_r; reflexivity.
Qed.

(** [init] on a page whose hash delivers no session key, with the session
    key [k] in the storage. *)
Lemma init_recovered env mc k :
  to_boolean (delivered_params env (self mc) (world mc) !! "sessionId") = false →
  recovered_key (self mc) (world mc) = Some k →
  k ≠ "" →
  init env mc
  = (Returned tt,
     {| self :=
          {| state := authorized_state env (init_manager (self mc) (Some k)) (state (self mc));
             sessionManager := Some (init_manager (self mc) (Some k));
             currentStorage := Some (init_store (self mc));
             options := options (self mc) |};
        world :=
          with_trace
            ([StorageOpen (init_store (self mc));
              StorageGet (init_store (self mc)) "sessionId"]
             ++ testnet_warning (self mc)
             ++ [HashQuery (default false (replaceUrlOnRedirect (options (self mc))))]
             ++ authorization_events env (init_manager (self mc) (Some k)))
            (world mc) |}).
Proof.
  intros Hnone Hrec Hne. apply string_to_boolean_true in Hne.
  destruct mc as [o w]. unfold_init. cbn in Hnone, Hrec.
  unfold store_get in Hrec. run_method.
  destruct (strict_eq (network (options o)) OPENLOGIN_NETWORK.TESTNET); cbn;
    repeat (progress (rewrite ?Hnone, ?Hrec, ?Hne; cbn));
    destruct (authorizeSession env _); cbn;
    rewrite <- ?app_assoc, ?spread_empty_r; reflexivity.
Qed.

(** [init] with no session key, neither delivered nor recovered: the
    session store is not asked. *)
Lemma init_without_key env mc :
  to_boolean (delivered_params env (self mc) (world mc) !! "sessionId") = false →
  to_boolean (recovered_key (self mc) (world mc)) = false →
  init env mc
  = (Returned tt,
     {| self :=
          {| state := state (self mc);
             sessionManager :=
               Some (init_manager (self mc) (recovered_key (self mc) (world mc)));
             currentStorage := Some (init_store (self mc));
             options := options (self mc) |};
        world :=
          with_trace
            ([StorageOpen (init_store (self mc));
              StorageGet (init_store (self mc)) "sessionId"]
             ++ testnet_warning (self mc)
             ++ [HashQuery (default false (replaceUrlOnRedirect (options (self mc))))])
            (world mc) |}).
Proof.
  intros Hnone Hrec.
  destruct mc as [o w]. unfold_init. cbn in Hnone, Hrec.
  unfold store_get in Hrec. run_method.
  destruct (strict_eq (network (options o)) OPENLOGIN_NETWORK.TESTNET); cbn;
    repeat (progress (rewrite ?Hnone, ?Hrec; cbn));
    rewrite <- ?app_assoc; reflexivity.
Qed.


Lemma elem_of_testnet_warning o e :
  e ∈ testnet_warning o → ∃ message, e = ConsoleLog message.
Proof.
  unfold testnet_warning. destruct (strict_eq _ _); intros He.
  - apply list_elem_of_singleton in He. eauto.
  - by apply elem_of_nil in He.
Qed.

Lemma elem_of_authorization_events env m e :
  e ∈ authorization_events env m →
  e = AuthorizeSession m ∨ ∃ err, authorizeSession env m = inl err ∧
                                   e = LogError "authorization failed" err.
Proof.
  unfold authorization_events. intros He.
  apply elem_of_cons in He as [-> | He]; [by left|]. right.
  destruct (authorizeSession env m) as [err|data].
  - apply list_elem_of_singleton in He. eauto.
  - by apply elem_of_nil in He.
Qed.



(** C8: a session key delivered in the hash of the page is written to the
    storage under ["sessionId"] and becomes the session key of the session
    manager, whatever key the storage held before; the one authorization
    [init] then makes is for the session manager holding the delivered key,
    and the state is what that authorization leaves. *)
Theorem init_adopts_delivered_key (env : Env) (mc : Machine) (sid : string) :
  delivered_params env (self mc) (world mc) !! "sessionId" = Some sid →
  sid ≠ "" →
  ∃ mc',
    init env mc = (Returned tt, mc') ∧
    currentStorage (self mc') = Some (init_store (self mc)) ∧
    store_get (init_store (self mc)) "sessionId" (world mc') = Some sid ∧
    StorageSet (init_store (self mc)) "sessionId" sid ∈ trace (world mc') ∧
    sessionManager (self mc') = Some (init_manager (self mc) (Some sid)) ∧
    active_session_key (self mc') = Some sid ∧
    AuthorizeSession (init_manager (self mc) (Some sid)) ∈ trace (world mc') ∧
    (∀ m, AuthorizeSession m ∈ trace (world mc') →
          AuthorizeSession m ∈ trace (world mc) ∨ m = init_manager (self mc) (Some sid)) ∧
    state (self mc')
    = authorized_state env (init_manager (self mc) (Some sid)) (state (self mc)).
Proof.
  intros Hsid Hne. eexists. split; [by apply init_delivered|]. cbn.
  repeat split.
  - apply store_get_set.
  - set_solver.
  - unfold active_session_key. cbn.
    apply string_to_boolean_true in Hne. by rewrite Hne.
  - unfold authorization_events. set_solver.
  - intros m Hm.
    apply elem_of_app in Hm as [Hm | Hm]; [by left|]. right.
    apply elem_of_cons in Hm as [Hm | Hm]; [discriminate|].
    apply elem_of_cons in Hm as [Hm | Hm]; [discriminate|].
    apply elem_of_app in Hm as [Hm | Hm].
    { apply elem_of_testnet_warning in Hm as [? ?]. discriminate. }
    apply elem_of_cons in Hm as [Hm | Hm]; [discriminate|].
    apply elem_of_cons in Hm as [Hm | Hm]; [discriminate|].
    apply elem_of_authorization_events in Hm as [Hm | (err & _ & Hm)];
      [congruence | discriminate].
Qed.

(** The storage holds ["session-old"], the hash delivers ["session-new"]. *)
Lemma init_adopts_sample :
  ∃ mc',
    init (sample_env {[ "sessionId" := "session-new" ]} (inr alice_session) None)
         (in_world fresh_object (world_with_stored_key "session-old"))
    = (Returned tt, mc') ∧
    store_get local_store "sessionId" (world mc') = Some "session-new" ∧
    active_session_key (self mc') = Some "session-new" ∧
    AuthorizeSession (init_manager fresh_object (Some "session-new")) ∈ trace (world mc').
Proof.
  destruct (init_adopts_delivered_key
              (sample_env {[ "sessionId" := "session-new" ]} (inr alice_session) None)
              (in_world fresh_object (world_with_stored_key "session-old"))
              "session-new")
    as (mc' & Hrun & _ & Hstored & _ & _ & Hactive & Hcall & _).
  - reflexivity.
  - discriminate.
  - exists mc'. repeat split; assumption.
Defined.

(** ** Login by redirect *)

Lemma getLoginId_initialised env loginParams mc m :
  sessionManager (self mc) = Some m →
  createSession env
    (new_session_manager (options (self mc)) (Some 600%Z)
       (Some (generateRandomSessionKey env (drawn (world mc)))))
    {| request_options := options (self mc); request_params := loginParams |} = None →
  ∃ mc1,
    getLoginId env loginParams mc
    = (Returned (generateRandomSessionKey env (drawn (world mc))), mc1) ∧
    self mc1 = self mc.
Proof.
  intros Hm Hcreate. destruct mc as [o w]. cbn in *.
  unfold new_session_manager in Hcreate.
  unfold getLoginId. run_method. rewrite Hm. cbn. rewrite Hcreate. cbn.
  eexists. split; reflexivity.
Qed.

Lemma login_redirect env mc p provider loginId mc1 :
  p !! "loginProvider" = Some provider → provider ≠ "" →
  uxMode (options (self mc)) = Some UX_MODE.REDIRECT →
  getLoginId env (merged_login_params (self mc) p) mc = (Returned loginId, mc1) →
  login env (Some p) mc
  = (Returned None,
     {| self := self mc1;
        world := navigate (start_url env (self mc) loginId)
                   (record_event (Navigate (start_url env (self mc) loginId)) (world mc1)) |}).
Proof.
  intros Hp Hne Hux Hid. apply string_to_boolean_true in Hne.
  assert (negb (to_boolean (Some p))
          || negb (to_boolean (Some p ≫= (.!! "loginProvider"))) = false) as Hcheck.
  { cbn. rewrite Hp. cbn. by rewrite Hne. }
  unfold login. rewrite Hcheck.
  erewrite bind_returned by reflexivity. cbv beta.
  erewrite bind_returned by exact Hid. cbv beta.
  apply strict_eq_true in Hux. rewrite Hux. reflexivity.
Qed.

(** C9, as amended: in redirect mode, with a provider, once the login
    request was created under the key [loginId], [login] sets the location of
    the page to the URL built from the login entry point of the service and
    the hash [{ loginId }], and then returns [undefined]: the call comes back
    to the caller, with no [{ privKey }] result. *)
Theorem redirect_login_navigates_then_returns
    (env : Env) (mc mc1 : Machine) (p : LoginParams) (provider loginId : string) :
  p !! "loginProvider" = Some provider → provider ≠ "" →
  uxMode (options (self mc)) = Some UX_MODE.REDIRECT →
  getLoginId env (merged_login_params (self mc) p) mc = (Returned loginId, mc1) →
  ∃ mc',
    login env (Some p) mc = (Returned None, mc') ∧
    href (location (world mc'))
    = constructURL env (interpolate (sdkUrl (options (self mc))) +:+ "/start")
                   [("loginId", loginId)] ∧
    trace (world mc')
    = (trace (world mc1)
       ++ [Navigate (constructURL env (interpolate (sdkUrl (options (self mc))) +:+ "/start")
                                  [("loginId", loginId)])])%list ∧
    self mc' = self mc1.
Proof.
  intros Hp Hne Hux Hid. eexists. split; [by eapply login_redirect|]. done.
Qed.

Lemma redirect_login_google :
  ∃ mc',
    login (sample_env ∅ (inl session_expired) None) (Some google_login)
          (in_world (initialised_object None ∅) empty_world)
    = (Returned None, mc') ∧
    href (location (world mc')) = "https://app.openlogin.com/start#loginId=login-request-1".
Proof.
  destruct (redirect_login_navigates_then_returns
              (sample_env ∅ (inl session_expired) None)
              (in_world (initialised_object None ∅) empty_world)
              (getLoginId (sample_env ∅ (inl session_expired) None)
                 (merged_login_params (initialised_object None ∅) google_login)
                 (in_world (initialised_object None ∅) empty_world)).2
              google_login "google" "login-request-1")
    as (mc' & Hrun & Hhref & _).
  - reflexivity.
  - discriminate.
  - reflexivity.
  - reflexivity.
  - exists mc'. split; [exact Hrun | exact Hhref].
Defined.

(** C9 as stated fails: a redirect login with the provider ["google"]
    returns to its caller, with [undefined], after it has set the location
    of the page. *)
Lemma redirect_login_returns_undefined :
  uxMode (options (initialised_object None ∅)) = Some UX_MODE.REDIRECT ∧
  (login (sample_env ∅ (inl session_expired) None) (Some google_login)
         (in_world (initialised_object None ∅) empty_world)).1
  = Returned None ∧
  href (location (world
    (login (sample_env ∅ (inl session_expired) None) (Some google_login)
           (in_world (initialised_object None ∅) empty_world)).2))
  = "https://app.openlogin.com/start#loginId=login-request-1".
Proof. split; [reflexivity|]. split; reflexivity. Qed.


(** * Further properties of the class *)

(** ** Construction *)

Lemma or_default_truthy {A} `{ToBoolean A} (o : option A) (d : A) :
  to_boolean d = true → to_boolean (or_default o d) = true.
Proof. intros Hd. unfold or_default. by destruct (to_boolean o) eqn:Ho. Qed.

Lemma or_default_supplied {A} `{ToBoolean A} (o : option A) (d : A) :
  to_boolean o = true → or_default o d = o.
Proof. intros Ho. unfold or_default. by rewrite Ho. Qed.

Lemma or_default_missing {A} `{ToBoolean A} (o : option A) (d : A) :
  to_boolean o = false → or_default o d = Some d.
Proof. intros Ho. unfold or_default. by rewrite Ho. Qed.

Lemma append_truthy_r (a b : string) : to_boolean b = true → to_boolean (a +:+ b) = true.
Proof. destruct a; [done | reflexivity]. Qed.

Lemma append_truthy_l (a b : string) : to_boolean a = true → to_boolean (a +:+ b) = true.
Proof. by destruct a. Qed.

(** A constructor that returns has resolved a service URL and has left the
    world alone. *)
Lemma constructor_returned config w o w' :
  constructor config w = (Returned o, w') →
  to_boolean (network_sdkUrl config) = true ∧ w' = w ∧
  sdkUrl (options o) = network_sdkUrl config.
Proof.
  unfold constructor. destruct (to_boolean (network_sdkUrl config)) eqn:Hurl; cbn.
  - intros [= <- <-]. done.
  - discriminate.
Qed.

Lemma constructor_accepts config w :
  to_boolean (network_sdkUrl config) = true →
  ∃ o, constructor config w = (Returned o, w).
Proof. intros Hurl. unfold constructor. rewrite Hurl. cbn. eauto. Qed.

(** A service URL given by the caller is kept, whatever the network says:
    a missing or unknown network does not make the constructor throw, and a
    known one does not replace the URL. *)
Theorem constructor_prefers_given_url (config : OpenLoginOptions) (w : World) :
  to_boolean (sdkUrl config) = true →
  ∃ o, constructor config w = (Returned o, w) ∧
       sdkUrl (options o) = sdkUrl config.
Proof.
  intros Hurl.
  assert (network_sdkUrl config = sdkUrl config) as Hsame.
  { unfold network_sdkUrl. by rewrite Hurl. }
  destruct (constructor_accepts config w) as [o Ho]; [by rewrite Hsame|].
  exists o. split; [done|].
  destruct (constructor_returned _ _ _ _ Ho) as (_ & _ & ->). done.
Qed.

Lemma constructor_prefers_given_url_sample :
  ∃ o, constructor custom_options empty_world = (Returned o, empty_world) ∧
       sdkUrl (options o) = Some "https://auth.example.org".
Proof. apply (constructor_prefers_given_url custom_options empty_world). reflexivity. Defined.

(** Whatever the caller passed, the options of a constructed object are
    complete, and the world was not touched.  In particular the URL rewrite
    is on even when the caller switched it off, and a session lifetime of
    zero has become the default one. *)
Theorem constructor_completes_options (config : OpenLoginOptions) (w w' : World) (o : OpenLogin) :
  constructor config w = (Returned o, w') →
  w' = w ∧ complete_options (options o) ∧
  (sessionTime config = Some 0%Z → sessionTime (options o) = Some 86400%Z).
Proof.
  intros Hrun. destruct (constructor_returned _ _ _ _ Hrun) as (Hurl & -> & _).
  revert Hrun. unfold constructor. rewrite Hurl. cbn. intros [= <-]. cbn.
  split; [done|]. split.
  - unfold complete_options. cbn.
    repeat split; try exact Hurl; try (by apply or_default_truthy).
    + apply or_default_truthy.
      repeat first [by apply append_truthy_r | apply append_truthy_l].
    + unfold or_default. by destruct (replaceUrlOnRedirect config) as [[]|].
  - by intros ->.
Qed.

Lemma constructor_completes_custom_options :
  ∃ o, constructor custom_options empty_world = (Returned o, empty_world) ∧
       complete_options (options o) ∧
       replaceUrlOnRedirect (options o) = Some true ∧
       sessionTime (options o) = Some 86400%Z.
Proof.
  destruct (constructor_accepts custom_options empty_world) as [o Ho]; [reflexivity|].
  destruct (constructor_completes_options custom_options empty_world empty_world o Ho)
    as (_ & Hcomplete & Htime).
  exists o. split; [exact Ho|]. split; [exact Hcomplete|]. split.
  - apply Hcomplete.
  - by apply Htime.
Defined.

(** On complete options the constructor changes nothing. *)
Lemma constructor_on_complete_options config w :
  complete_options config →
  constructor config w
  = (Returned {| state := ∅; sessionManager := None; currentStorage := None;
                 options := config |}, w).
Proof.
  destruct config. unfold complete_options. cbn.
  intros (Hsdk & Hredirect & Hux & -> & Horigin & Hwl & Hlc & Hserver & Hkey & Hwt & Htime).
  unfold constructor, network_sdkUrl. cbn. rewrite Hsdk. cbn. rewrite Hsdk. cbn.
  unfold mbind, M_bind, gets, mret, M_ret. cbn.
  by rewrite !or_default_supplied.
Qed.

(** Defaulting is idempotent: a second object built from the options of a
    constructed one, on whatever page, holds the same options. *)
Theorem constructor_idempotent (config : OpenLoginOptions) (w w' w2 : World) (o : OpenLogin) :
  constructor config w = (Returned o, w') →
  ∃ o2, constructor (options o) w2 = (Returned o2, w2) ∧ options o2 = options o.
Proof.
  intros Hrun.
  destruct (constructor_completes_options _ _ _ _ Hrun) as (_ & Hcomplete & _).
  eexists. split; [by apply constructor_on_complete_options|]. reflexivity.
Qed.

Lemma constructor_idempotent_sample :
  ∃ o2, constructor mainnet_defaults (world_with_stored_key "session-1")
        = (Returned o2, world_with_stored_key "session-1") ∧
        options o2 = mainnet_defaults.
Proof.
  apply (constructor_idempotent mainnet_options empty_world empty_world
           (world_with_stored_key "session-1") fresh_object).
  reflexivity.
Defined.

(** ** Before [init] *)

Lemma getLoginId_before_init env loginParams mc :
  sessionManager (self mc) = None →
  getLoginId env loginParams mc
  = (Thrown (Error "session manager not initialized. please call init first"), mc).
Proof.
  intros Hm. unfold getLoginId.
  erewrite bind_returned by reflexivity. cbv beta. by rewrite Hm.
Qed.

Lemma login_checked env p provider mc :
  p !! "loginProvider" = Some provider → provider ≠ "" →
  login env (Some p) mc
  = (loginId ← getLoginId env (merged_login_params (self mc) p);
     if strict_eq (uxMode (options (self mc))) UX_MODE.REDIRECT
     then
       emit (Navigate (start_url env (self mc) loginId));;
       on_world (navigate (start_url env (self mc) loginId));;
       mret None
     else
       let loginUrl := constructURL env (interpolate (sdkUrl (options (self mc))) +:+ "/popup-window")
                                    [("loginId", loginId)] in
       emit (PopupOpen loginUrl loginId);;
       match popupOutcome env loginUrl loginId with
       | PopupClosed => throw (Error "user closed popup")
       | ChannelError err => throw err
       | ChannelMessage sessionId =>
           m ← the_sessionManager "sessionKey";
           on_self (with_sessionManager (set_sessionKey sessionId m));;
           sessionData ← sm_authorizeSession env (set_sessionKey sessionId m);
           updateState sessionData;;
           key ← read privKey;
           mret (Some key)
       end) mc.
Proof.
  intros Hp Hne. apply string_to_boolean_true in Hne.
  assert (negb (to_boolean (Some p))
          || negb (to_boolean (Some p ≫= (.!! "loginProvider"))) = false) as Hcheck.
  { cbn. rewrite Hp. cbn. by rewrite Hne. }
  unfold login. rewrite Hcheck.
  erewrite bind_returned by reflexivity. reflexivity.
Qed.

(** An object that was constructed and not initialised is not logged in:
    the key accessors give the empty string, [getUserInfo] throws its
    not-authenticated error, and a [login] with a provider throws the
    not-initialised error; none of them touches the object or the world. *)
Theorem constructed_object_is_logged_out
    (env : Env) (config : OpenLoginOptions) (w w' w2 : World) (o : OpenLogin)
    (p : LoginParams) (provider : string) :
  constructor config w = (Returned o, w') →
  p !! "loginProvider" = Some provider → provider ≠ "" →
  privKey o = Returned "" ∧ coreKitKey o = Returned "" ∧
  getUserInfo (in_world o w2)
  = (Thrown (Error "user should be logged in to fetch userInfo"), in_world o w2) ∧
  login env (Some p) (in_world o w2)
  = (Thrown (Error "session manager not initialized. please call init first"),
     in_world o w2).
Proof.
  intros Hrun Hp Hne.
  assert (state o = ∅ ∧ sessionManager o = None) as [Hstate Hm].
  { revert Hrun. unfold constructor.
    destruct (to_boolean (network_sdkUrl config)); cbn; [|discriminate].
    by intros [= <- _]. }
  assert (∀ f, state o !! f = None) as Hnone by (intros f; by rewrite Hstate).
  repeat split.
  - apply padded_unset. left. apply Hnone.
  - apply padded_unset. left. apply Hnone.
  - apply getUserInfo_unauthenticated. left. apply Hnone.
  - rewrite (login_checked _ _ _ _ Hp Hne).
    by rewrite (bind_thrown _ _ _ _ _
                  (getLoginId_before_init env _ (in_world o w2) Hm)).
Qed.

Lemma constructed_object_is_logged_out_sample :
  privKey fresh_object = Returned "" ∧ coreKitKey fresh_object = Returned "" ∧
  getUserInfo (in_world fresh_object empty_world)
  = (Thrown (Error "user should be logged in to fetch userInfo"),
     in_world fresh_object empty_world) ∧
  login (sample_env ∅ (inr alice_session) None) (Some google_login)
        (in_world fresh_object empty_world)
  = (Thrown (Error "session manager not initialized. please call init first"),
     in_world fresh_object empty_world).
Proof.
  apply (constructed_object_is_logged_out (sample_env ∅ (inr alice_session) None)
           mainnet_options empty_world empty_world empty_world fresh_object
           google_login "google").
  - reflexivity.
  - reflexivity.
  - discriminate.
Defined.

(** ** What [init] calls *)

Lemma new_events_with_trace w w2 events :
  trace w2 = trace w → new_events w (with_trace events w2) = events.
Proof.
  intros Htrace. unfold new_events, with_trace. cbn. rewrite Htrace.
  apply drop_app_length.
Qed.

Lemma authorization_events_epilogue env m :
  Forall init_epilogue_event (authorization_events env m).
Proof.
  unfold authorization_events. constructor.
  - right. left. eauto.
  - destruct (authorizeSession env m); constructor; [|constructor].
    right. right. eauto.
Qed.

Lemma init_trace_delivered env mc sid :
  delivered_params env (self mc) (world mc) !! "sessionId" = Some sid → sid ≠ "" →
  ∃ mc' rest,
    init env mc = (Returned tt, mc') ∧
    new_events (world mc) (world mc') = (init_prologue (self mc) ++ rest)%list ∧
    Forall init_epilogue_event rest ∧
    options (self mc') = options (self mc) ∧
    currentStorage (self mc') = Some (init_store (self mc)) ∧
    is_Some (sessionManager (self mc')).
Proof.
  intros Hsid Hne.
  eexists _, (StorageSet (init_store (self mc)) "sessionId" sid
              :: authorization_events env (init_manager (self mc) (Some sid))).
  split; [by apply init_delivered|]. cbn.
  split; [|split; [|by eauto]].
  - rewrite new_events_with_trace by reflexivity.
    unfold init_prologue. by rewrite <- !app_assoc.
  - constructor; [left; eauto | apply authorization_events_epilogue].
Qed.

Lemma init_trace_recovered env mc k :
  to_boolean (delivered_params env (self mc) (world mc) !! "sessionId") = false →
  recovered_key (self mc) (world mc) = Some k → k ≠ "" →
  ∃ mc' rest,
    init env mc = (Returned tt, mc') ∧
    new_events (world mc) (world mc') = (init_prologue (self mc) ++ rest)%list ∧
    Forall init_epilogue_event rest ∧
    options (self mc') = options (self mc) ∧
    currentStorage (self mc') = Some (init_store (self mc)) ∧
    is_Some (sessionManager (self mc')).
Proof.
  intros Hnone Hrec Hne.
  eexists _, (authorization_events env (init_manager (self mc) (Some k))).
  split; [by apply init_recovered|]. cbn.
  split; [|split; [|by eauto]].
  - rewrite new_events_with_trace by reflexivity.
    unfold init_prologue. by rewrite <- !app_assoc.
  - apply authorization_events_epilogue.
Qed.

Lemma init_trace_without_key env mc :
  to_boolean (delivered_params env (self mc) (world mc) !! "sessionId") = false →
  to_boolean (recovered_key (self mc) (world mc)) = false →
  ∃ mc' rest,
    init env mc = (Returned tt, mc') ∧
    new_events (world mc) (world mc') = (init_prologue (self mc) ++ rest)%list ∧
    Forall init_epilogue_event rest ∧
    options (self mc') = options (self mc) ∧
    currentStorage (self mc') = Some (init_store (self mc)) ∧
    is_Some (sessionManager (self mc')).
Proof.
  intros Hnone Hrec. eexists _, [].
  split; [by apply init_without_key|]. cbn.
  split; [|split; [constructor | by eauto]].
  rewrite new_events_with_trace by reflexivity.
  unfold init_prologue. by rewrite app_nil_r.
Qed.

(** The shape of every run of [init]. *)
Lemma init_trace env mc :
  ∃ mc' rest,
    init env mc = (Returned tt, mc') ∧
    new_events (world mc) (world mc') = (init_prologue (self mc) ++ rest)%list ∧
    Forall init_epilogue_event rest ∧
    options (self mc') = options (self mc) ∧
    currentStorage (self mc') = Some (init_store (self mc)) ∧
    is_Some (sessionManager (self mc')).
Proof.
  destruct (delivered_params env (self mc) (world mc) !! "sessionId") as [sid|] eqn:Hsid.
  - destruct (decide (sid = "")) as [-> | Hne]; [|by apply (init_trace_delivered _ _ sid)].
    destruct (recovered_key (self mc) (world mc)) as [k|] eqn:Hrec.
    + destruct (decide (k = "")) as [-> | Hk].
      * apply init_trace_without_key; by rewrite ?Hsid, ?Hrec.
      * apply (init_trace_recovered _ _ k); by rewrite ?Hsid.
    + apply init_trace_without_key; by rewrite ?Hsid, ?Hrec.
  - destruct (recovered_key (self mc) (world mc)) as [k|] eqn:Hrec.
    + destruct (decide (k = "")) as [-> | Hk].
      * apply init_trace_without_key; by rewrite ?Hsid, ?Hrec.
      * apply (init_trace_recovered _ _ k); by rewrite ?Hsid.
    + apply init_trace_without_key; by rewrite ?Hsid, ?Hrec.
Qed.

Lemma elem_of_init_prologue o e :
  e ∈ init_prologue o →
  e = StorageOpen (init_store o) ∨ e = StorageGet (init_store o) "sessionId" ∨
  e ∈ testnet_warning o ∨
  e = HashQuery (default false (replaceUrlOnRedirect (options o))).
Proof.
  unfold init_prologue. intros He.
  apply elem_of_cons in He as [-> | He]; [by left|].
  apply elem_of_cons in He as [-> | He]; [by right; left|].
  apply elem_of_app in He as [He | He]; [by right; right; left|].
  apply list_elem_of_singleton in He. by right; right; right.
Qed.


Lemma epilogue_not_hash_query rest replaceUrl :
  Forall init_epilogue_event rest → HashQuery replaceUrl ∉ rest.
Proof.
  intros Hrest Hin. rewrite Forall_forall in Hrest.
  destruct (Hrest _ Hin) as [(? & ? & ?) | [(? & ?) | (? & ?)]]; discriminate.
Qed.


(** The URL rewrite cannot be switched off: whatever [replaceUrlOnRedirect]
    the caller configured, the [init] of a constructed object reads the hash
    of the page with the rewrite on, once, and never with the rewrite off. *)
Theorem constructed_init_rewrites_url
    (env : Env) (config : OpenLoginOptions) (w w1 : World) (o : OpenLogin) :
  constructor config w = (Returned o, w1) →
  ∃ mc',
    init env (in_world o w1) = (Returned tt, mc') ∧
    HashQuery true ∈ new_events w1 (world mc') ∧
    HashQuery false ∉ new_events w1 (world mc').
Proof.
  intros Hnew.
  destruct (constructor_completes_options _ _ _ _ Hnew) as (_ & Hcomplete & _).
  assert (replaceUrlOnRedirect (options o) = Some true) as Hreplace by apply Hcomplete.
  destruct (init_trace env (in_world o w1)) as (mc' & rest & Hrun & Hevents & Hrest & _).
  exists mc'. split; [exact Hrun|].
  unfold in_world in Hevents. cbn [world self] in Hevents. rewrite Hevents. split.
  - apply elem_of_app. left. unfold init_prologue. rewrite Hreplace.
    apply elem_of_cons; right. apply elem_of_cons; right.
    apply elem_of_app; right. by apply list_elem_of_singleton.
  - intros Hin. apply elem_of_app in Hin as [Hin | Hin].
    + apply elem_of_init_prologue in Hin as [? | [? | [Hin | Hin]]]; try discriminate.
      * apply elem_of_testnet_warning in Hin as [? ?]. discriminate.
      * rewrite Hreplace in Hin. discriminate.
    + by apply epilogue_not_hash_query in Hin.
Qed.

Lemma constructed_init_rewrites_url_sample :
  ∃ o mc',
    replaceUrlOnRedirect custom_options = Some false ∧
    constructor custom_options empty_world = (Returned o, empty_world) ∧
    init (sample_env ∅ (inl session_expired) None) (in_world o empty_world)
    = (Returned tt, mc') ∧
    HashQuery true ∈ new_events empty_world (world mc') ∧
    HashQuery false ∉ new_events empty_world (world mc').
Proof.
  destruct (constructor_accepts custom_options empty_world) as [o Ho]; [reflexivity|].
  destruct (constructed_init_rewrites_url (sample_env ∅ (inl session_expired) None)
              custom_options empty_world empty_world o Ho) as (mc' & Hrun & Hon & Hoff).
  exists o, mc'. split; [reflexivity|]. split; [exact Ho|].
  split; [exact Hrun|]. split; [exact Hon | exact Hoff].
Defined.

(** ** What [init] stores and recovers *)

Lemma store_get_set_other h name data h' name' w :
  store_id h' ≠ store_id h ∨ name' ≠ name →
  store_get h' name' (store_set h name data w) = store_get h' name' w.
Proof.
  intros Hother. unfold store_get, store_set. cbn.
  destruct (decide (store_id h' = store_id h)) as [Heq | Hne].
  - destruct Hother as [? | Hname]; [done|].
    rewrite Heq, lookup_insert_eq. cbn. rewrite lookup_insert_ne by done.
    by destruct (storage w !! store_id h).
  - by rewrite lookup_insert_ne.
Qed.

Lemma store_get_with_trace h name events w :
  store_get h name (with_trace events w) = store_get h name w.
Proof. reflexivity. Qed.

(** [init] writes nothing but the ["sessionId"] entry of its own store:
    every other entry, of that store or of another, reads as before. *)
Theorem init_writes_own_session_entry_only (env : Env) (mc : Machine) :
  ∃ mc',
    init env mc = (Returned tt, mc') ∧
    ∀ h name,
      store_id h ≠ store_id (init_store (self mc)) ∨ name ≠ "sessionId" →
      store_get h name (world mc') = store_get h name (world mc).
Proof.
  destruct (delivered_params env (self mc) (world mc) !! "sessionId") as [sid|] eqn:Hsid;
    [destruct (decide (sid = "")) as [-> | Hne]|];
    [| eexists; split; [by apply init_delivered|];
       intros h name Hother; cbn; rewrite store_get_with_trace;
       by apply store_get_set_other | ];
    (destruct (recovered_key (self mc) (world mc)) as [k|] eqn:Hrec;
     [destruct (decide (k = "")) as [-> | Hk]|];
     (eexists; split;
      [first [ apply init_without_key; by rewrite ?Hsid, ?Hrec
             | apply (init_recovered _ _ k); by rewrite ?Hsid ]
      | done ])).
Qed.

(** Decides that an event of another kind is not among the events of [init]. *)
Ltac not_an_init_event H :=
  repeat match type of H with
  | _ ∈ (_ ++ _)%list => apply elem_of_app in H as [H|H]
  | _ ∈ _ :: _ => apply elem_of_cons in H as [H|H]; [discriminate|]
  | _ ∈ [] => by apply elem_of_nil in H
  | _ ∈ testnet_warning _ => apply elem_of_testnet_warning in H as [? ?]; discriminate
  | _ ∈ authorization_events _ _ =>
      apply elem_of_authorization_events in H as [? | (? & _ & ?)]; discriminate
  end.



(** With no session key, neither in the hash nor in the storage (or an
    empty one there), [init] does not ask the session store and keeps the
    state; the object is initialised all the same, so that a [logout] then
    throws the not-logged-in error, with no invalidation. *)
Theorem init_without_key_stays_logged_out (env : Env) (mc : Machine) :
  to_boolean (delivered_params env (self mc) (world mc) !! "sessionId") = false →
  to_boolean (recovered_key (self mc) (world mc)) = false →
  ∃ mc',
    init env mc = (Returned tt, mc') ∧
    state (self mc') = state (self mc) ∧
    active_session_key (self mc') = None ∧
    (∀ m, AuthorizeSession m ∉ new_events (world mc) (world mc')) ∧
    logout env mc' = (Thrown (Error "User not logged in"), mc').
Proof.
  intros Hnone Hrec. eexists. split; [by apply init_without_key|].
  assert (active_session_key
            {| state := state (self mc);
               sessionManager :=
                 Some (init_manager (self mc) (recovered_key (self mc) (world mc)));
               currentStorage := Some (init_store (self mc));
               options := options (self mc) |} = None) as Hactive.
  { unfold active_session_key. cbn.
    destruct (recovered_key (self mc) (world mc)) as [k|]; [|done].
    cbn in Hrec. by rewrite Hrec. }
  split; [done|]. split; [exact Hactive|]. split.
  - intros m. cbn [world]. rewrite new_events_with_trace by done.
    intros Hin. not_an_init_event Hin.
  - eapply logout_not_logged_in; [reflexivity|].
    refine (active_session_key_None _ _ _ Hactive). reflexivity.
Qed.

Lemma init_without_key_sample :
  ∃ mc',
    init (sample_env ∅ (inr alice_session) None)
         (in_world fresh_object (world_with_stored_key ""))
    = (Returned tt, mc') ∧
    state (self mc') = ∅ ∧
    active_session_key (self mc') = None ∧
    (∀ m, AuthorizeSession m ∉ new_events (world_with_stored_key "") (world mc')) ∧
    logout (sample_env ∅ (inr alice_session) None) mc'
    = (Thrown (Error "User not logged in"), mc').
Proof.
  apply (init_without_key_stays_logged_out (sample_env ∅ (inr alice_session) None)
           (in_world fresh_object (world_with_stored_key ""))); reflexivity.
Defined.

(** *** Session namespaces *)





(** *** Across page loads *)

Lemma init_store_same_options o1 o2 : options o1 = options o2 → init_store o1 = init_store o2.
Proof. unfold init_store. by intros ->. Qed.

(** A session key delivered in the hash survives a reload: the object
    that the next page load constructs from the same options, with nothing
    in the hash, recovers that key and asks the session store about it. *)
Theorem delivered_key_survives_reload
    (env env2 : Env) (mc : Machine) (o2 : OpenLogin) (sid : string) :
  delivered_params env (self mc) (world mc) !! "sessionId" = Some sid → sid ≠ "" →
  options o2 = options (self mc) →
  (∀ w, to_boolean (delivered_params env2 o2 w !! "sessionId") = false) →
  ∃ mc' mc2,
    init env mc = (Returned tt, mc') ∧
    recovered_key o2 (world mc') = Some sid ∧
    init env2 (in_world o2 (world mc')) = (Returned tt, mc2) ∧
    AuthorizeSession (init_manager o2 (Some sid)) ∈ new_events (world mc') (world mc2) ∧
    active_session_key (self mc2) = Some sid ∧
    state (self mc2) = authorized_state env2 (init_manager o2 (Some sid)) (state o2).
Proof.
  intros Hsid Hne Hsame Hquiet.
  eexists _, _. split; [by apply init_delivered|].
  assert (recovered_key o2
            (with_trace
               ([StorageOpen (init_store (self mc));
                 StorageGet (init_store (self mc)) "sessionId"]
                ++ testnet_warning (self mc)
                ++ [HashQuery (default false (replaceUrlOnRedirect (options (self mc))));
                    StorageSet (init_store (self mc)) "sessionId" sid]
                ++ authorization_events env (init_manager (self mc) (Some sid)))
               (store_set (init_store (self mc)) "sessionId" sid (world mc)))
          = Some sid) as Hrec.
  { unfold recovered_key. rewrite store_get_with_trace.
    rewrite (init_store_same_options o2 (self mc) Hsame). apply store_get_set. }
  cbn [world]. split; [exact Hrec|]. split.
  { apply init_recovered; [apply Hquiet | exact Hrec | exact Hne]. }
  cbn [world self state in_world]. split; [|split; [|reflexivity]].
  - rewrite new_events_with_trace by reflexivity.
    unfold authorization_events. set_solver.
  - unfold active_session_key. cbn.
    apply string_to_boolean_true in Hne. by rewrite Hne.
Qed.

Lemma delivered_key_survives_reload_sample :
  ∃ mc' mc2,
    init (sample_env {[ "sessionId" := "session-2" ]} (inr alice_session) None)
         (in_world fresh_object empty_world) = (Returned tt, mc') ∧
    recovered_key fresh_object (world mc') = Some "session-2" ∧
    init (sample_env ∅ (inr alice_session) None) (in_world fresh_object (world mc'))
    = (Returned tt, mc2) ∧
    AuthorizeSession (init_manager fresh_object (Some "session-2"))
    ∈ new_events (world mc') (world mc2) ∧
    active_session_key (self mc2) = Some "session-2" ∧
    state (self mc2) = alice_session.
Proof.
  destruct (delivered_key_survives_reload
              (sample_env {[ "sessionId" := "session-2" ]} (inr alice_session) None)
              (sample_env ∅ (inr alice_session) None)
              (in_world fresh_object empty_world) fresh_object "session-2")
    as (mc' & mc2 & H1 & H2 & H3 & H4 & H5 & H6).
  - reflexivity.
  - discriminate.
  - reflexivity.
  - intros w. reflexivity.
  - exists mc', mc2. repeat split; assumption.
Defined.

(** A logout survives a reload too: after it, the object that the next page
    load constructs for the same storage, with nothing in the hash, does not
    ask the session store and stays logged out. *)
Theorem logout_survives_reload (env env2 : Env) (mc mc' : Machine) (o2 : OpenLogin) :
  logout env mc = (Returned tt, mc') →
  currentStorage (self mc) = Some (init_store o2) →
  (∀ w, to_boolean (delivered_params env2 o2 w !! "sessionId") = false) →
  ∃ mc2,
    init env2 (in_world o2 (world mc')) = (Returned tt, mc2) ∧
    state (self mc2) = state o2 ∧
    active_session_key (self mc2) = None ∧
    (∀ m, AuthorizeSession m ∉ new_events (world mc') (world mc2)).
Proof.
  intros Hout Hstore Hquiet.
  destruct (logout_returned _ _ _ Hout) as (m & h & _ & _ & _ & Hh & ->).
  assert (h = init_store o2) as -> by congruence.
  destruct (init_without_key_stays_logged_out env2
              (in_world o2
                 (store_set (init_store o2) "sessionId" ""
                    (record_event (StorageSet (init_store o2) "sessionId" "")
                       (record_event (InvalidateSession m) (world mc))))))
    as (mc2 & Hrun & Hstate & Hactive & Hnone & _).
  - apply Hquiet.
  - unfold recovered_key. cbn [self world in_world]. by rewrite store_get_set.
  - exists mc2. cbn [world]. done.
Qed.

Lemma logout_survives_reload_sample :
  ∃ mc2,
    init (sample_env ∅ (inr alice_session) None)
         (in_world fresh_object
            (logout (sample_env ∅ (inr alice_session) None)
               (in_world (initialised_object (Some "session-1") alice_session)
                  (world_with_stored_key "session-1"))).2.(world))
    = (Returned tt, mc2) ∧
    state (self mc2) = ∅ ∧
    active_session_key (self mc2) = None.
Proof.
  destruct (logout_survives_reload
              (sample_env ∅ (inr alice_session) None)
              (sample_env ∅ (inr alice_session) None)
              (in_world (initialised_object (Some "session-1") alice_session)
                 (world_with_stored_key "session-1"))
              (logout (sample_env ∅ (inr alice_session) None)
                 (in_world (initialised_object (Some "session-1") alice_session)
                    (world_with_stored_key "session-1"))).2
              fresh_object)
    as (mc2 & Hrun & Hstate & Hactive & _).
  - reflexivity.
  - reflexivity.
  - intros w. reflexivity.
  - exists mc2. split; [exact Hrun|]. split; [exact Hstate | exact Hactive].
Defined.

(** ** Login *)

(** Takes apart every answer a collaborator can give in the goal. *)
Ltac case_answers :=
  repeat match goal with
  | |- context [match ?x with _ => _ end] =>
      match x with
      | createSession _ _ _ => destruct x eqn:?
      | authorizeSession _ _ => destruct x eqn:?
      | invalidateSession _ _ => destruct x eqn:?
      | popupOutcome _ _ _ => destruct x eqn:?
      | strict_eq _ _ => destruct x eqn:?
      | sessionManager _ => destruct x eqn:?
      | currentStorage _ => destruct x eqn:?
      | _ !! _ => destruct x as [[]|] eqn:?
      | to_boolean _ => destruct x eqn:?
      | negb (to_boolean _) => destruct x eqn:?
      end; cbn
  end.

(** [login] never writes to the storage; in popup mode too the session key
    it receives is given to the session manager and to nothing else. *)
Theorem login_never_stores (env : Env) (params : option LoginParams) (mc : Machine) :
  storage (world (login env params mc).2) = storage (world mc).
Proof.
  unfold login.
  destruct (negb (to_boolean params)
            || negb (to_boolean (params ≫= (.!! "loginProvider")))); [reflexivity|].
  unfold getLoginId, privKey, padded. run_method. case_answers; reflexivity.
Qed.

(** [getLoginId] on an initialised object: a random key is drawn, a session
    of 600 seconds is created under it, and the object is not touched. *)
Lemma getLoginId_run env loginParams mc m :
  sessionManager (self mc) = Some m →
  getLoginId env loginParams mc
  = (match createSession env (login_request_manager env (self mc) (world mc))
             {| request_options := options (self mc); request_params := loginParams |} with
     | None => Returned (generateRandomSessionKey env (drawn (world mc)))
     | Some err => Thrown err
     end,
     {| self := self mc;
        world := record_event
                   (CreateSession (login_request_manager env (self mc) (world mc))
                      {| request_options := options (self mc);
                         request_params := loginParams |})
                   (draw (record_event RandomSessionKey (world mc))) |}).
Proof.
  intros Hm. destruct mc as [o w]. cbn in *.
  unfold getLoginId, login_request_manager. run_method. rewrite Hm. cbn.
  by destruct (createSession env _ _).
Qed.

Lemma new_events_app w w' events :
  trace w' = (trace w ++ events)%list → new_events w w' = events.
Proof. intros Htrace. unfold new_events. rewrite Htrace. apply drop_app_length. Qed.

(** A login request lives 600 seconds, whatever session lifetime is
    configured, under a key drawn for it; creating it records these two
    calls and nothing else, and leaves the object (and with it the session
    key of the user) and the storage alone.  What the session store answers
    decides between the key and the error. *)
Theorem login_request_is_independent
    (env : Env) (loginParams : LoginParams) (mc : Machine) (m : SessionManager) :
  sessionManager (self mc) = Some m →
  ∃ result mc1 requestManager,
    getLoginId env loginParams mc = (result, mc1) ∧
    self mc1 = self mc ∧
    storage (world mc1) = storage (world mc) ∧
    new_events (world mc) (world mc1)
    = [RandomSessionKey;
       CreateSession requestManager
         {| request_options := options (self mc); request_params := loginParams |}] ∧
    sessionTimeOf requestManager = Some 600%Z ∧
    sessionKey requestManager = Some (generateRandomSessionKey env (drawn (world mc))) ∧
    sessionNamespaceOf requestManager = sessionNamespace (options (self mc)) ∧
    sessionServerBaseUrl requestManager = storageServerUrl (options (self mc)) ∧
    result = match createSession env requestManager
                     {| request_options := options (self mc);
                        request_params := loginParams |} with
             | None => Returned (generateRandomSessionKey env (drawn (world mc)))
             | Some err => Thrown err
             end.
Proof.
  intros Hm. eexists _, _, (login_request_manager env (self mc) (world mc)).
  split; [by eapply getLoginId_run|]. cbn.
  repeat split. apply new_events_app. cbn. by rewrite <- app_assoc.
Qed.

Lemma login_request_sample :
  ∃ mc1,
    getLoginId (popup_env PopupClosed (inr alice_session) None) google_login
               (in_world (initialised_object (Some "session-1") alice_session) empty_world)
    = (Returned "login-request-1", mc1) ∧
    self mc1 = initialised_object (Some "session-1") alice_session ∧
    new_events empty_world (world mc1)
    = [RandomSessionKey;
       CreateSession (new_session_manager mainnet_defaults (Some 600%Z) (Some "login-request-1"))
         {| request_options := mainnet_defaults; request_params := google_login |}].
Proof.
  destruct (login_request_is_independent (popup_env PopupClosed (inr alice_session) None)
              google_login
              (in_world (initialised_object (Some "session-1") alice_session) empty_world)
              (new_session_manager mainnet_defaults (Some 86400%Z) (Some "session-1")))
    as (result & mc1 & rm & Hrun & Hself & _ & Hevents & Htime & Hkey & Hns & Hurl & Hres).
  - reflexivity.
  - exists mc1. destruct rm as [url ns time key]. cbn in *. subst.
    split; [exact Hrun|]. split; [exact Hself | exact Hevents].
Defined.

Lemma getLoginId_accepted env loginParams mc m :
  sessionManager (self mc) = Some m →
  createSession env (login_request_manager env (self mc) (world mc))
    {| request_options := options (self mc); request_params := loginParams |} = None →
  getLoginId env loginParams mc
  = (Returned (generateRandomSessionKey env (drawn (world mc))),
     {| self := self mc;
        world := record_event
                   (CreateSession (login_request_manager env (self mc) (world mc))
                      {| request_options := options (self mc);
                         request_params := loginParams |})
                   (draw (record_event RandomSessionKey (world mc))) |}).
Proof. intros Hm Hcreate. rewrite (getLoginId_run _ _ _ _ Hm). by rewrite Hcreate. Qed.

Lemma getLoginId_refused env loginParams mc m err :
  sessionManager (self mc) = Some m →
  createSession env (login_request_manager env (self mc) (world mc))
    {| request_options := options (self mc); request_params := loginParams |} = Some err →
  getLoginId env loginParams mc
  = (Thrown err,
     {| self := self mc;
        world := record_event
                   (CreateSession (login_request_manager env (self mc) (world mc))
                      {| request_options := options (self mc);
                         request_params := loginParams |})
                   (draw (record_event RandomSessionKey (world mc))) |}).
Proof. intros Hm Hcreate. rewrite (getLoginId_run _ _ _ _ Hm). by rewrite Hcreate. Qed.

(** When the session store refuses the login request, [login] fails with
    the error of the store, in either UX mode: the page is not navigated, no
    popup is opened, and the object is as before. *)
Theorem login_stops_when_request_refused
    (env : Env) (mc : Machine) (m : SessionManager) (p : LoginParams)
    (provider : string) (err : exn) :
  p !! "loginProvider" = Some provider → provider ≠ "" →
  sessionManager (self mc) = Some m →
  createSession env (login_request_manager env (self mc) (world mc))
    (login_request (self mc) p) = Some err →
  ∃ mc',
    login env (Some p) mc = (Thrown err, mc') ∧
    self mc' = self mc ∧
    location (world mc') = location (world mc) ∧
    new_events (world mc) (world mc')
    = [RandomSessionKey;
       CreateSession (login_request_manager env (self mc) (world mc))
         (login_request (self mc) p)].
Proof.
  intros Hp Hne Hm Hcreate. eexists. split.
  { rewrite (login_checked _ _ _ _ Hp Hne).
    apply bind_thrown. by eapply getLoginId_refused. }
  cbn. repeat split. apply new_events_app. cbn. by rewrite <- app_assoc.
Qed.

Lemma login_stops_sample :
  ∃ mc',
    login (popup_env PopupClosed (inr alice_session) (Some store_unreachable))
          (Some google_login) (in_world (initialised_object None ∅) empty_world)
    = (Thrown store_unreachable, mc') ∧
    self mc' = initialised_object None ∅ ∧
    location (world mc') = dapp_location.
Proof.
  destruct (login_stops_when_request_refused
              (popup_env PopupClosed (inr alice_session) (Some store_unreachable))
              (in_world (initialised_object None ∅) empty_world)
              (new_session_manager mainnet_defaults (Some 86400%Z) None)
              google_login "google" store_unreachable)
    as (mc' & Hrun & Hself & Hloc & _).
  - reflexivity.
  - discriminate.
  - reflexivity.
  - reflexivity.
  - exists mc'. split; [exact Hrun|]. split; [exact Hself | exact Hloc].
Defined.

(** Whatever follows, a [login] that passed its checks on an initialised
    object begins with the creation of the login request. *)
Lemma login_begins_with_request env mc m p provider :
  p !! "loginProvider" = Some provider → provider ≠ "" →
  sessionManager (self mc) = Some m →
  ∃ rest,
    trace (world (login env (Some p) mc).2)
    = (trace (world mc)
       ++ [RandomSessionKey;
           CreateSession (login_request_manager env (self mc) (world mc))
             (login_request (self mc) p)]
       ++ rest)%list.
Proof.
  intros Hp Hne Hm. rewrite (login_checked _ _ _ _ Hp Hne).
  unfold mbind at 1, M_bind at 1. rewrite (getLoginId_run _ _ _ _ Hm).
  unfold login_request.
  destruct (createSession env _ _) as [err|].
  { exists []. cbn. by rewrite <- app_assoc. }
  unfold privKey, padded. run_method.
  case_answers; eexists; cbn; rewrite <- ?app_assoc; cbn; reflexivity.
Qed.

Lemma merged_login_params_given o p k v :
  p !! k = Some v → merged_login_params o p !! k = Some v.
Proof. intros Hk. unfold merged_login_params. by apply spread_lookup_r. Qed.

Lemma merged_login_params_redirect o p :
  p !! "redirectUrl" = None →
  merged_login_params o p !! "redirectUrl" = redirectUrl (options o).
Proof.
  intros Hk. unfold merged_login_params.
  rewrite spread_lookup_l by done.
  destruct (redirectUrl (options o)) as [url|].
  - by apply spread_lookup_r.
  - rewrite spread_lookup_l by done. done.
Qed.

Lemma merged_login_params_other o p k :
  p !! k = None → k ≠ "redirectUrl" → k ≠ "loginProvider" →
  merged_login_params o p !! k = None.
Proof.
  intros Hk Hredirect Hprovider. unfold merged_login_params.
  rewrite !spread_lookup_l; [by apply lookup_singleton_ne | | done].
  destruct (redirectUrl (options o)); [by apply lookup_singleton_ne | done].
Qed.

(** What [login] sends with the login request: the configuration of the
    object and the parameters of the caller, each of them as the caller gave
    it; the redirect URL of the configuration stands in only when the caller
    gave none, and nothing else is added. *)
Theorem login_sends_caller_params_first
    (env : Env) (mc : Machine) (m : SessionManager) (p : LoginParams) (provider : string) :
  p !! "loginProvider" = Some provider → provider ≠ "" →
  sessionManager (self mc) = Some m →
  ∃ sent,
    CreateSession (login_request_manager env (self mc) (world mc))
      {| request_options := options (self mc); request_params := sent |}
    ∈ new_events (world mc) (world (login env (Some p) mc).2) ∧
    (∀ k v, p !! k = Some v → sent !! k = Some v) ∧
    (p !! "redirectUrl" = None → sent !! "redirectUrl" = redirectUrl (options (self mc))) ∧
    (∀ k, p !! k = None → k ≠ "redirectUrl" → sent !! k = None).
Proof.
  intros Hp Hne Hm. exists (merged_login_params (self mc) p).
  split; [|split; [|split]].
  - destruct (login_begins_with_request env mc m p provider Hp Hne Hm) as [rest Hrest].
    rewrite (new_events_app _ _ _ Hrest).
    apply elem_of_cons; right. apply elem_of_cons; left. reflexivity.
  - intros k v. apply merged_login_params_given.
  - apply merged_login_params_redirect.
  - intros k Hk Hredirect. apply merged_login_params_other; [done..|].
    intros ->. congruence.
Qed.

Lemma login_sends_sample :
  ∃ sent,
    CreateSession (new_session_manager mainnet_defaults (Some 600%Z) (Some "login-request-1"))
      {| request_options := mainnet_defaults; request_params := sent |}
    ∈ new_events empty_world
        (world (login (sample_env ∅ (inl session_expired) None)
                  (Some {[ "loginProvider" := "google";
                           "redirectUrl" := "https://dapp.io/welcome" ]})
                  (in_world (initialised_object None ∅) empty_world)).2) ∧
    sent !! "redirectUrl" = Some "https://dapp.io/welcome" ∧
    sent !! "loginProvider" = Some "google".
Proof.
  destruct (login_sends_caller_params_first
              (sample_env ∅ (inl session_expired) None)
              (in_world (initialised_object None ∅) empty_world)
              (new_session_manager mainnet_defaults (Some 86400%Z) None)
              {[ "loginProvider" := "google"; "redirectUrl" := "https://dapp.io/welcome" ]}
              "google")
    as (sent & Hsent & Hgiven & _).
  - reflexivity.
  - discriminate.
  - reflexivity.
  - exists sent. split; [exact Hsent|]. split; apply Hgiven; reflexivity.
Defined.

(** ** Login by popup *)

(** [login] in popup mode, once the login request was accepted. *)
Lemma login_popup env mc m p provider :
  p !! "loginProvider" = Some provider → provider ≠ "" →
  sessionManager (self mc) = Some m →
  uxMode (options (self mc)) ≠ Some UX_MODE.REDIRECT →
  createSession env (login_request_manager env (self mc) (world mc))
    (login_request (self mc) p) = None →
  let loginId := generateRandomSessionKey env (drawn (world mc)) in
  let opened :=
    record_event (PopupOpen (popup_url env (self mc) loginId) loginId)
      (record_event
         (CreateSession (login_request_manager env (self mc) (world mc))
            (login_request (self mc) p))
         (draw (record_event RandomSessionKey (world mc)))) in
  login env (Some p) mc
  = match popupOutcome env (popup_url env (self mc) loginId) loginId with
    | PopupClosed =>
        (Thrown (Error "user closed popup"), {| self := self mc; world := opened |})
    | ChannelError err => (Thrown err, {| self := self mc; world := opened |})
    | ChannelMessage sessionId =>
        let adopted := with_sessionManager (set_sessionKey sessionId m) (self mc) in
        match authorizeSession env (set_sessionKey sessionId m) with
        | inl err =>
            (Thrown err,
             {| self := adopted;
                world := record_event (AuthorizeSession (set_sessionKey sessionId m)) opened |})
        | inr sessionData =>
            (match privKey (with_state (spread (state (self mc)) sessionData) adopted) with
             | Returned key => Returned (Some key)
             | Thrown e => Thrown e
             end,
             {| self := with_state (spread (state (self mc)) sessionData) adopted;
                world := record_event (AuthorizeSession (set_sessionKey sessionId m)) opened |})
        end
    end.
Proof.
  intros Hp Hne Hm Hux Hcreate loginId opened. subst loginId opened.
  rewrite (login_checked _ _ _ _ Hp Hne).
  erewrite bind_returned by (by eapply getLoginId_accepted).
  cbv beta. apply strict_eq_false in Hux. rewrite Hux.
  unfold popup_url, login_request. run_method.
  destruct (popupOutcome env _ _) as [|sessionId|err]; [reflexivity| |reflexivity].
  cbn -[privKey]. rewrite Hm. cbn -[privKey].
  destruct (authorizeSession env _) as [err|sessionData]; [reflexivity|]. cbn -[privKey].
  by destruct (privKey _).
Qed.

(** When the user closes the popup, [login] fails with the user-closed
    error: the popup was opened on the URL of the popup entry point, the
    session store was not asked to authorize anything, and the object is as
    before. *)
Theorem popup_closed_rejects_login
    (env : Env) (mc : Machine) (m : SessionManager) (p : LoginParams) (provider : string) :
  p !! "loginProvider" = Some provider → provider ≠ "" →
  sessionManager (self mc) = Some m →
  uxMode (options (self mc)) ≠ Some UX_MODE.REDIRECT →
  createSession env (login_request_manager env (self mc) (world mc))
    (login_request (self mc) p) = None →
  popupOutcome env
    (popup_url env (self mc) (generateRandomSessionKey env (drawn (world mc))))
    (generateRandomSessionKey env (drawn (world mc))) = PopupClosed →
  ∃ mc',
    login env (Some p) mc = (Thrown (Error "user closed popup"), mc') ∧
    self mc' = self mc ∧
    location (world mc') = location (world mc) ∧
    PopupOpen (popup_url env (self mc) (generateRandomSessionKey env (drawn (world mc))))
              (generateRandomSessionKey env (drawn (world mc)))
    ∈ new_events (world mc) (world mc') ∧
    ∀ m', AuthorizeSession m' ∉ new_events (world mc) (world mc').
Proof.
  intros Hp Hne Hm Hux Hcreate Hclosed. eexists. split.
  { rewrite (login_popup _ _ _ _ _ Hp Hne Hm Hux Hcreate). cbv zeta.
    rewrite Hclosed. reflexivity. }
  cbn. split; [done|]. split; [done|].
  rewrite (new_events_app _ _
             [RandomSessionKey;
              CreateSession (login_request_manager env (self mc) (world mc))
                (login_request (self mc) p);
              PopupOpen (popup_url env (self mc) (generateRandomSessionKey env (drawn (world mc))))
                (generateRandomSessionKey env (drawn (world mc)))])
    by (cbn; by rewrite <- !app_assoc).
  split.
  - do 2 (apply elem_of_cons; right). apply elem_of_cons; left. reflexivity.
  - intros m' Hin. not_an_init_event Hin.
Qed.

Lemma popup_closed_sample :
  ∃ mc',
    login (popup_env PopupClosed (inr alice_session) None) (Some google_login)
          (in_world (popup_object None ∅) empty_world)
    = (Thrown (Error "user closed popup"), mc') ∧
    self mc' = popup_object None ∅ ∧
    PopupOpen "https://app.openlogin.com/popup-window#loginId=login-request-1"
              "login-request-1"
    ∈ new_events empty_world (world mc').
Proof.
  destruct (popup_closed_rejects_login
              (popup_env PopupClosed (inr alice_session) None)
              (in_world (popup_object None ∅) empty_world)
              (new_session_manager mainnet_defaults (Some 86400%Z) None)
              google_login "google")
    as (mc' & Hrun & Hself & _ & Hopen & _).
  - reflexivity.
  - discriminate.
  - reflexivity.
  - discriminate.
  - reflexivity.
  - reflexivity.
  - exists mc'. split; [exact Hrun|]. split; [exact Hself | exact Hopen].
Defined.

(** When the popup delivers a session key, [login] gives it to the session
    manager and asks the session store about it; on the store's answer the
    session data is merged into the state and the promise is fulfilled with
    the private key as the accessor pads it. *)
Theorem popup_login_resolves_with_private_key
    (env : Env) (mc : Machine) (m : SessionManager) (p : LoginParams)
    (provider sid k : string) (sessionData : OpenloginSessionData) :
  p !! "loginProvider" = Some provider → provider ≠ "" →
  sessionManager (self mc) = Some m →
  uxMode (options (self mc)) ≠ Some UX_MODE.REDIRECT →
  createSession env (login_request_manager env (self mc) (world mc))
    (login_request (self mc) p) = None →
  popupOutcome env
    (popup_url env (self mc) (generateRandomSessionKey env (drawn (world mc))))
    (generateRandomSessionKey env (drawn (world mc))) = ChannelMessage sid →
  authorizeSession env (set_sessionKey sid m) = inr sessionData →
  sessionData !! "privKey" = Some (VString k) → k ≠ "" → (String.length k ≤ 64)%nat →
  ∃ mc',
    login env (Some p) mc = (Returned (Some (zeros (64 - String.length k) +:+ k)), mc') ∧
    privKey (self mc') = Returned (zeros (64 - String.length k) +:+ k) ∧
    state (self mc') = spread (state (self mc)) sessionData ∧
    sessionManager (self mc') = Some (set_sessionKey sid m) ∧
    AuthorizeSession (set_sessionKey sid m) ∈ new_events (world mc) (world mc').
Proof.
  intros Hp Hne Hm Hux Hcreate Hmsg Hauth Hkey Hk Hlen.
  assert (privKey (with_state (spread (state (self mc)) sessionData)
                     (with_sessionManager (set_sessionKey sid m) (self mc)))
          = Returned (zeros (64 - String.length k) +:+ k)) as Hpriv.
  { apply padded_fits; [|done..]. cbn. by apply spread_lookup_r. }
  eexists. split.
  { rewrite (login_popup _ _ _ _ _ Hp Hne Hm Hux Hcreate). cbv zeta.
    rewrite Hmsg, Hauth, Hpriv. reflexivity. }
  cbn [self world]. split; [exact Hpriv|]. split; [done|]. split; [done|].
  erewrite new_events_app by (cbn; rewrite <- !app_assoc; reflexivity).
  apply elem_of_app; right. do 2 (apply elem_of_cons; right).
  apply elem_of_cons; left. reflexivity.
Qed.

Lemma popup_login_sample :
  ∃ mc',
    login (popup_env (ChannelMessage "session-9") (inr alice_session) None)
          (Some google_login) (in_world (popup_object None ∅) empty_world)
    = (Returned (Some "00000000000000000000000000000000000000000000000000000000000a11ce"),
       mc') ∧
    state (self mc') = alice_session ∧
    active_session_key (self mc') = Some "session-9".
Proof.
  destruct (popup_login_resolves_with_private_key
              (popup_env (ChannelMessage "session-9") (inr alice_session) None)
              (in_world (popup_object None ∅) empty_world)
              (new_session_manager mainnet_defaults (Some 86400%Z) None)
              google_login "google" "session-9" "a11ce" alice_session)
    as (mc' & Hrun & _ & Hstate & Hmanager & _).
  - reflexivity.
  - discriminate.
  - reflexivity.
  - discriminate.
  - reflexivity.
  - reflexivity.
  - reflexivity.
  - reflexivity.
  - discriminate.
  - simpl. lia.
  - exists mc'. split; [exact Hrun|]. split; [exact Hstate|].
    unfold active_session_key. rewrite Hmanager. reflexivity.
Defined.

(** A failed authorization is not swallowed by a popup [login] as it is by
    [init]: the error of the session store is the error of [login], nothing
    is logged, and the state is as before.  The session manager keeps the
    delivered key all the same: it was adopted before the store was asked. *)
Theorem popup_login_surfaces_authorization_failure
    (env : Env) (mc : Machine) (m : SessionManager) (p : LoginParams)
    (provider sid : string) (err : exn) :
  p !! "loginProvider" = Some provider → provider ≠ "" →
  sessionManager (self mc) = Some m →
  uxMode (options (self mc)) ≠ Some UX_MODE.REDIRECT →
  createSession env (login_request_manager env (self mc) (world mc))
    (login_request (self mc) p) = None →
  popupOutcome env
    (popup_url env (self mc) (generateRandomSessionKey env (drawn (world mc))))
    (generateRandomSessionKey env (drawn (world mc))) = ChannelMessage sid →
  authorizeSession env (set_sessionKey sid m) = inl err →
  ∃ mc',
    login env (Some p) mc = (Thrown err, mc') ∧
    state (self mc') = state (self mc) ∧
    sessionManager (self mc') = Some (set_sessionKey sid m) ∧
    ∀ message e, LogError message e ∉ new_events (world mc) (world mc').
Proof.
  intros Hp Hne Hm Hux Hcreate Hmsg Hauth. eexists. split.
  { rewrite (login_popup _ _ _ _ _ Hp Hne Hm Hux Hcreate). cbv zeta.
    rewrite Hmsg, Hauth. reflexivity. }
  cbn [self world]. split; [done|]. split; [done|].
  erewrite new_events_app by (cbn; rewrite <- !app_assoc; reflexivity).
  intros message e Hin. not_an_init_event Hin.
Qed.

Lemma popup_login_failure_sample :
  ∃ mc',
    login (popup_env (ChannelMessage "session-9") (inl session_expired) None)
          (Some google_login)
          (in_world (popup_object (Some "session-1") alice_session) empty_world)
    = (Thrown session_expired, mc') ∧
    state (self mc') = alice_session ∧
    active_session_key (self mc') = Some "session-9".
Proof.
  destruct (popup_login_surfaces_authorization_failure
              (popup_env (ChannelMessage "session-9") (inl session_expired) None)
              (in_world (popup_object (Some "session-1") alice_session) empty_world)
              (new_session_manager mainnet_defaults (Some 86400%Z) (Some "session-1"))
              google_login "google" "session-9" session_expired)
    as (mc' & Hrun & Hstate & Hmanager & _).
  - reflexivity.
  - discriminate.
  - reflexivity.
  - discriminate.
  - reflexivity.
  - reflexivity.
  - reflexivity.
  - exists mc'. split; [exact Hrun|]. split; [exact Hstate|].
    unfold active_session_key. rewrite Hmanager. reflexivity.
Defined.

(** ** Login by redirect, continued *)

(** In redirect mode [login] hands over to the service and does no more:
    it opens no popup, asks the session store for no authorization and
    leaves the object, state and session key, as it was.  The session comes
    with the next [init]. *)
Theorem redirect_login_keeps_object
    (env : Env) (mc : Machine) (m : SessionManager) (p : LoginParams) (provider : string) :
  p !! "loginProvider" = Some provider → provider ≠ "" →
  sessionManager (self mc) = Some m →
  uxMode (options (self mc)) = Some UX_MODE.REDIRECT →
  self (login env (Some p) mc).2 = self mc ∧
  (∀ m', AuthorizeSession m' ∉ new_events (world mc) (world (login env (Some p) mc).2)) ∧
  (∀ url channel, PopupOpen url channel
                  ∉ new_events (world mc) (world (login env (Some p) mc).2)).
Proof.
  intros Hp Hne Hm Hux.
  destruct (createSession env (login_request_manager env (self mc) (world mc))
              (login_request (self mc) p)) as [err|] eqn:Hcreate.
  - rewrite (login_checked _ _ _ _ Hp Hne).
    erewrite bind_thrown by (by eapply getLoginId_refused). cbn [snd self world].
    erewrite new_events_app by (cbn; rewrite <- !app_assoc; reflexivity).
    split; [done|]. split; intros; intros Hin; not_an_init_event Hin.
  - erewrite login_redirect; [| done | done | done | by eapply getLoginId_accepted].
    cbn [snd self world navigate record_event trace].
    erewrite new_events_app by (cbn; rewrite <- !app_assoc; reflexivity).
    split; [done|]. split; intros; intros Hin; not_an_init_event Hin.
Qed.

Lemma redirect_login_keeps_sample :
  self (login (sample_env ∅ (inr alice_session) None) (Some google_login)
          (in_world (initialised_object (Some "session-1") alice_session) empty_world)).2
  = initialised_object (Some "session-1") alice_session.
Proof.
  apply (redirect_login_keeps_object (sample_env ∅ (inr alice_session) None)
           (in_world (initialised_object (Some "session-1") alice_session) empty_world)
           (new_session_manager mainnet_defaults (Some 86400%Z) (Some "session-1"))
           google_login "google").
  - reflexivity.
  - discriminate.
  - reflexivity.
  - reflexivity.
Defined.

(** ** State after a logout *)

(** After a logout that returns the object is logged out for its readers:
    both key accessors give the empty string and [getUserInfo] throws its
    not-authenticated error; the configuration is as before. *)
Theorem logout_then_unauthenticated (env : Env) (mc mc' : Machine) :
  logout env mc = (Returned tt, mc') →
  privKey (self mc') = Returned "" ∧
  coreKitKey (self mc') = Returned "" ∧
  getUserInfo mc' = (Thrown (Error "user should be logged in to fetch userInfo"), mc') ∧
  options (self mc') = options (self mc).
Proof.
  intros Hout.
  destruct (logout_returned _ _ _ Hout) as (m & h & _ & _ & _ & _ & ->).
  assert (∀ f w, f ∈ session_key_fields →
            state (self {| self := with_state (spread (state (self mc)) logged_out_state)
                                     (self mc);
                           world := w |}) !! f = Some (VString "")) as Hfield.
  { intros f w Hf. cbn. apply spread_lookup_r. by apply logged_out_state_key_field. }
  repeat split.
  - apply padded_unset. right. apply (Hfield "privKey" (world mc)).
    unfold session_key_fields. apply elem_of_cons. by left.
  - apply padded_unset. right. apply (Hfield "coreKitKey" (world mc)).
    unfold session_key_fields. apply elem_of_cons; right. apply elem_of_cons. by left.
  - apply getUserInfo_unauthenticated. right. apply Hfield.
    unfold session_key_fields. apply elem_of_cons. by left.
Qed.

Lemma logout_then_unauthenticated_sample :
  let mc' := (logout (sample_env ∅ (inr alice_session) None)
                     (in_world (initialised_object (Some "session-1") alice_session)
                               empty_world)).2 in
  privKey (self mc') = Returned "" ∧
  coreKitKey (self mc') = Returned "" ∧
  getUserInfo mc' = (Thrown (Error "user should be logged in to fetch userInfo"), mc') ∧
  options (self mc') = mainnet_defaults.
Proof.
  intros mc'.
  apply (logout_then_unauthenticated (sample_env ∅ (inr alice_session) None)
           (in_world (initialised_object (Some "session-1") alice_session) empty_world)).
  reflexivity.
Defined.

(** A logout that returns has made two calls, in this order: the
    invalidation of the session of the session manager, and the write of
    the empty string under ["sessionId"].  Every other entry of the storage
    reads as before, and the page is where it was. *)
Theorem logout_invalidates_then_clears (env : Env) (mc mc' : Machine) :
  logout env mc = (Returned tt, mc') →
  ∃ m h,
    sessionManager (self mc) = Some m ∧ currentStorage (self mc) = Some h ∧
    new_events (world mc) (world mc')
    = [InvalidateSession m; StorageSet h "sessionId" ""] ∧
    (∀ h' name, store_id h' ≠ store_id h ∨ name ≠ "sessionId" →
                store_get h' name (world mc') = store_get h' name (world mc)) ∧
    location (world mc') = location (world mc).
Proof.
  intros Hout.
  destruct (logout_returned _ _ _ Hout) as (m & h & Hm & _ & _ & Hh & ->).
  exists m, h. split; [exact Hm|]. split; [exact Hh|]. cbn [world]. split; [|split].
  - apply new_events_app. cbn. by rewrite <- app_assoc.
  - intros h' name Hother. by rewrite store_get_set_other.
  - reflexivity.
Qed.

Lemma logout_invalidates_sample :
  ∃ m h,
    new_events (world_with_stored_key "session-1")
      (world (logout (sample_env ∅ (inr alice_session) None)
                (in_world (initialised_object (Some "session-1") alice_session)
                   (world_with_stored_key "session-1"))).2)
    = [InvalidateSession m; StorageSet h "sessionId" ""] ∧
    sessionKey m = Some "session-1" ∧ h = local_store.
Proof.
  destruct (logout_invalidates_then_clears (sample_env ∅ (inr alice_session) None)
              (in_world (initialised_object (Some "session-1") alice_session)
                 (world_with_stored_key "session-1"))
              (logout (sample_env ∅ (inr alice_session) None)
                 (in_world (initialised_object (Some "session-1") alice_session)
                    (world_with_stored_key "session-1"))).2)
    as (m & h & Hm & Hh & Hevents & _); [reflexivity|].
  exists m, h. split; [exact Hevents|].
  cbn in Hm, Hh. injection Hm as <-. injection Hh as <-. split; reflexivity.
Defined.

(** ** Merging session data *)

(** The merge of session data into the state is by top-level field, and
    shallow: after an [init] whose authorization succeeds, a field of the
    data has the value of the data, whole (a [userInfo] of the data replaces
    the one of the state, nested fields and all), and a field the data lacks
    is as before. *)
Theorem init_merges_by_field
    (env : Env) (mc : Machine) (k : string) (data : OpenloginSessionData) :
  k ≠ "" →
  delivered_params env (self mc) (world mc) !! "sessionId" = Some k ∨
  (to_boolean (delivered_params env (self mc) (world mc) !! "sessionId") = false ∧
   recovered_key (self mc) (world mc) = Some k) →
  authorizeSession env (init_manager (self mc) (Some k)) = inr data →
  ∃ mc',
    init env mc = (Returned tt, mc') ∧
    (∀ f v, data !! f = Some v → state (self mc') !! f = Some v) ∧
    (∀ f, data !! f = None → state (self mc') !! f = state (self mc) !! f).
Proof.
  intros Hne Hkey Hdata.
  destruct Hkey as [Hsid | [Hnone Hrec]];
    (eexists; split; [first [by apply init_delivered | by apply init_recovered]|]);
    cbn; unfold authorized_state; rewrite Hdata;
    (split; [intros f v; apply spread_lookup_r | intros f; apply spread_lookup_l]).
Qed.

Lemma init_merges_shallow_sample :
  ∃ mc',
    init (sample_env ∅ (inr bob_session) None)
         (in_world (object_with_state alice_session) (world_with_stored_key "session-1"))
    = (Returned tt, mc') ∧
    state (self mc') !! "userInfo" = Some (VObject {[ "name" := "Bob" ]}) ∧
    state (self mc') !! "privKey" = Some (VString "a11ce").
Proof.
  destruct (init_merges_by_field (sample_env ∅ (inr bob_session) None)
              (in_world (object_with_state alice_session) (world_with_stored_key "session-1"))
              "session-1" bob_session)
    as (mc' & Hrun & Hdata & Hkept).
  - discriminate.
  - right. split; reflexivity.
  - reflexivity.
  - exists mc'. split; [exact Hrun|]. split.
    + by apply Hdata.
    + rewrite Hkept by reflexivity. reflexivity.
Defined.

(** ** Reading the user info *)

(** [getUserInfo] reads and does nothing else: whatever it answers, object
    and world are as before.  With a private key in the state and no user
    info, its answer is [undefined], not an error. *)
Theorem getUserInfo_only_reads (mc : Machine) :
  (getUserInfo mc).2 = mc ∧
  (∀ k, state (self mc) !! "privKey" = Some (VString k) → k ≠ "" →
        state (self mc) !! "userInfo" = None →
        getUserInfo mc = (Returned None, mc)).
Proof.
  split.
  - unfold getUserInfo, read, privKey, padded, mbind, M_bind, gets, throw.
    destruct (state (self mc) !! "privKey") as [[s|]|]; cbn; [|done..].
    destruct (to_boolean s); cbn; [|done].
    by destruct (to_boolean (padStart 64 "0" s)).
  - intros k Hk Hne Hinfo. rewrite (getUserInfo_authenticated _ _ Hk Hne).
    by rewrite Hinfo.
Qed.

Lemma getUserInfo_only_reads_sample :
  getUserInfo (in_world (object_with_state {[ "privKey" := VString "a11ce" ]}) empty_world)
  = (Returned None,
     in_world (object_with_state {[ "privKey" := VString "a11ce" ]}) empty_world).
Proof.
  destruct (getUserInfo_only_reads
              (in_world (object_with_state {[ "privKey" := VString "a11ce" ]}) empty_world))
    as [_ Hread].
  apply (Hread "a11ce"); [reflexivity | discriminate | reflexivity].
Defined.
